(** * Data Insight Pro: the rule-based query engine and the column classifier

    A shallow embedding of [ai_assistant] ([query_data_with_ai],
    [create_data_profile]), of [data_processor] ([process_data],
    [get_summary_stats], [filter_data], [detect_data_types]), of
    [visualizer.get_visualization_options] and of
    [utils.format_large_number], and the properties the specification states
    about them.

    Modelling conventions.
    - Python [str] is [string], a sequence of one-byte characters: the text
      of queries, column names and cells is taken to be ASCII.  [str.lower]
      maps the letters A..Z to a..z and leaves every other byte alone;
      [a in b] on strings is substring containment.
    - Numeric cells are IEEE binary64 values ([float], the kernel's primitive
      floats): pandas stores a numeric column as int64 or float64 and marks a
      missing entry with NaN.  An entry of an int64 column is the binary64
      value of its integer; where the code computes on the numpy int64 itself
      (the difference of the trend branch) the integer is read back and the
      arithmetic wraps around at 64 bits.
    - A DataFrame is an index (row labels) and an ordered list of columns.
    - An exception raised by the code is the [Raise] result.
    - The functions of pandas that the repository calls but does not define
      (mean, median, the Pearson correlation of [DataFrame.corr] and that of
      [Series.corr], sorting, [to_datetime]) and Python's number format are
      parameters; max, min, idxmax and idxmin are written out. *)

From Stdlib Require Import String Ascii List ZArith Bool Floats Lia.
From Stdlib Require Import Permutation DecimalString.
Import ListNotations.
Open Scope string_scope.

(** ** Python strings *)

Module Py.

(** [c.lower()] on one ASCII character. *)
Definition lower_ascii (c : ascii) : ascii :=
  let n := nat_of_ascii c in
  if (65 <=? n)%nat && (n <=? 90)%nat then ascii_of_nat (n + 32) else c.

(** [s.lower()]. *)
Fixpoint lower (s : string) : string :=
  match s with
  | EmptyString => EmptyString
  | String c t => String (lower_ascii c) (lower t)
  end.

(** [s.startswith(p)]. *)
Fixpoint startswith (p s : string) : bool :=
  match p, s with
  | EmptyString, _ => true
  | String _ _, EmptyString => false
  | String a p', String b s' => Ascii.eqb a b && startswith p' s'
  end.

(** [needle in hay]. *)
Fixpoint contains (needle hay : string) : bool :=
  startswith needle hay
  || match hay with
     | EmptyString => false
     | String _ t => contains needle t
     end.

(** [any(word in q for word in words)]. *)
Definition any_in (words : list string) (q : string) : bool :=
  existsb (fun word => contains word q) words.

(** Truth value of a string: only the empty string is falsy. *)
Definition truthy (s : string) : bool :=
  match s with EmptyString => false | String _ _ => true end.

End Py.

(** ** Intents: the branch of the if/elif chain a query takes *)

Inductive tendency := mean | median.
Inductive extreme := maximum | minimum.

Inductive intent :=
| summary
| central_tendency (k : tendency)
| extremum (k : extreme)
| correlation
| statistical_none
| distribution
| comparison
| trend
| fallback.

Definition summary_words := ["summarize"; "summary"; "overview"; "describe"].
Definition statistical_words :=
  ["average"; "mean"; "median"; "maximum"; "minimum"; "correlation"; "correlate"].
Definition distribution_words := ["distribution"; "histogram"; "spread"; "range"].
Definition comparison_words :=
  ["compare"; "comparison"; "difference"; "versus"; "vs"].
Definition trend_words := ["trend"; "time"; "over time"; "change"; "evolution"].

(** The inner if/elif chain of the statistical branch.  The source has no
    final [else]: when no test fires the response stays empty, which is
    [statistical_none] here. *)
Definition statistical_dispatch (query_lower : string) : intent :=
  if Py.contains "average" query_lower || Py.contains "mean" query_lower
  then central_tendency mean
  else if Py.contains "median" query_lower
  then central_tendency median
  else if Py.contains "maximum" query_lower || Py.contains "max" query_lower
  then extremum maximum
  else if Py.contains "minimum" query_lower || Py.contains "min" query_lower
  then extremum minimum
  else if Py.contains "correlation" query_lower
          || Py.contains "correlate" query_lower
  then correlation
  else statistical_none.

(** The outer if/elif chain of [query_data_with_ai], on the lowercased query. *)
Definition branch (query_lower : string) : intent :=
  if Py.any_in summary_words query_lower then summary
  else if Py.any_in statistical_words query_lower
  then statistical_dispatch query_lower
  else if Py.any_in distribution_words query_lower then distribution
  else if Py.any_in comparison_words query_lower then comparison
  else if Py.any_in trend_words query_lower then trend
  else fallback.

Definition resolve_intent (query : string) : intent :=
  branch (Py.lower query).

(** ** Exceptions *)

Inductive exn := KeyError | ValueError | IndexError.

Inductive result (A : Type) : Type :=
| Ok (a : A)
| Raise (e : exn).
Arguments Ok {A} a.
Arguments Raise {A} e.

Definition bind {A B} (r : result A) (k : A -> result B) : result B :=
  match r with
  | Ok a => k a
  | Raise e => Raise e
  end.

Notation "x <- r ;; k" := (bind r (fun x => k))
  (at level 61, r at next level, right associativity).


(** ** DataFrames *)

Inductive dtype := int64 | float64 | bool_ | datetime64 | object_ | category.

(** [np.number], as [select_dtypes(include=[np.number])] reads it: bool and
    datetime columns are not numbers. *)
Definition is_number (d : dtype) : bool :=
  match d with int64 | float64 => true | _ => false end.

(** [pd.api.types.is_numeric_dtype]: bool counts as numeric here. *)
Definition is_numeric_dtype (d : dtype) : bool :=
  match d with int64 | float64 | bool_ => true | _ => false end.

Definition is_datetime64_dtype (d : dtype) : bool :=
  match d with datetime64 => true | _ => false end.

Definition is_object_dtype (d : dtype) : bool :=
  match d with object_ => true | _ => false end.

(** One entry of a column.  A numeric column holds [Num] (NaN when missing,
    True and False as 1 and 0), an object column [Str] or [NA], a datetime
    column [Stamp] (nanoseconds) or [NA].  The numbers of a frame are written
    as binary64 values: an entry of an int64 column is the binary64 value of
    its integer, which is exact for the integers binary64 holds (all those
    up to 2^53 in magnitude). *)
Inductive cell :=
| Num (x : float)
| Str (s : string)
| Stamp (t : Z)
| NA.

Record column := { name : string; dt : dtype; values : list cell }.

Record DataFrame := { index : list Z; columns : list column }.

(** [df.shape[0]] and [df.shape[1]]. *)
Definition shape0 (df : DataFrame) : nat := List.length (index df).
Definition shape1 (df : DataFrame) : nat := List.length (columns df).

(** [df.columns]. *)
Definition column_names (df : DataFrame) : list string :=
  map name (columns df).

(** [df.select_dtypes(...).columns.tolist()], by a test on the dtype. *)
Definition select_dtypes (p : dtype -> bool) (df : DataFrame) : list string :=
  map name (filter (fun c => p (dt c)) (columns df)).

Definition numeric_cols (df : DataFrame) : list string :=
  select_dtypes is_number df.
Definition categorical_cols (df : DataFrame) : list string :=
  select_dtypes (fun d => negb (is_number d)) df.
Definition datetime_cols (df : DataFrame) : list string :=
  select_dtypes is_datetime64_dtype df.

(** [c in cols] for a list of names. *)
Definition mem (c : string) (cols : list string) : bool :=
  existsb (String.eqb c) cols.

(** [df[c]]. *)
Definition getitem (df : DataFrame) (c : string) : result column :=
  match find (fun col => name col =? c) (columns df) with
  | Some col => Ok col
  | None => Raise KeyError
  end.

Definition to_float (c : cell) : float :=
  match c with Num x => x | _ => nan end.

Definition floats (col : column) : list float := map to_float (values col).

(** [pd.isna] on one entry. *)
Definition is_missing (c : cell) : bool :=
  match c with
  | Num x => is_nan x
  | NA => true
  | _ => false
  end.

(** The row at position [p], as a Series indexed by the column names. *)
Definition iloc (df : DataFrame) (p : nat) : list (string * cell) :=
  map (fun c => (name c, nth p (values c) NA)) (columns df).

(** The positions of the rows labelled [label], counted from [n]. *)
Fixpoint positions_from (n : nat) (label : Z) (labels : list Z) : list nat :=
  match labels with
  | [] => []
  | l :: rest =>
      if (l =? label)%Z
      then n :: positions_from (S n) label rest
      else positions_from (S n) label rest
  end.

Definition positions (label : Z) (labels : list Z) : list nat :=
  positions_from 0 label labels.

(** The rows labelled [label], in the order of the frame. *)
Definition rows_labelled (df : DataFrame) (label : Z)
  : list (list (string * cell)) :=
  map (iloc df) (positions label (index df)).

(** [df.loc[label]]: the row labelled [label], all the rows labelled so
    when there are several, and KeyError when there is none. *)
Definition loc (df : DataFrame) (label : Z)
  : result (list (list (string * cell))) :=
  match rows_labelled df label with
  | [] => Raise KeyError
  | rows => Ok rows
  end.

(** ** Series reductions: max, min, idxmax, idxmin

    Missing entries are skipped.  A scan keeps its current best and replaces
    it only by an entry that beats it, so the first of several equal extreme
    entries is the one kept. *)

Definition beats (k : extreme) (best y : float) : bool :=
  match k with
  | maximum => (best <? y)%float
  | minimum => (y <? best)%float
  end.

Definition step {A} (key : A -> float) (k : extreme) (best y : A) : A :=
  if beats k (key best) (key y) then y else best.

Definition notna (x : float) : bool := negb (is_nan x).

(** [s.max()] and [s.min()]: NaN when every entry is missing. *)
Definition Series_extreme (k : extreme) (s : list float) : float :=
  match filter notna s with
  | [] => nan
  | x :: rest => fold_left (step (fun y => y) k) rest x
  end.

Definition Series_max := Series_extreme maximum.
Definition Series_min := Series_extreme minimum.

Fixpoint enumerate_from {A} (n : nat) (l : list A) : list (nat * A) :=
  match l with
  | [] => []
  | x :: rest => (n, x) :: enumerate_from (S n) rest
  end.

(** Position of the first occurrence of the extreme entry. *)
Definition argextreme (k : extreme) (s : list float) : option nat :=
  match filter (fun py => notna (snd py)) (enumerate_from 0 s) with
  | [] => None
  | first :: rest => Some (fst (fold_left (step snd k) rest first))
  end.

(** [s.idxmax()] and [s.idxmin()] on a Series that carries [labels]: the
    label of that position.  As pandas 1.x and 2.x have it, an empty Series
    is a ValueError, and a Series in which every entry is missing gives NaN,
    here [None]. *)
Definition idxextreme (k : extreme) (labels : list Z) (s : list float)
  : result (option Z) :=
  match s with
  | [] => Raise ValueError
  | _ :: _ =>
      match argextreme k s with
      | None => Ok None
      | Some p =>
          match nth_error labels p with
          | Some label => Ok (Some label)
          | None => Raise IndexError
          end
      end
  end.

Definition idxmax := idxextreme maximum.
Definition idxmin := idxextreme minimum.

(** ** numpy scalars

    [s.iloc[i]] is a numpy float64 on a float64 column and a numpy int64 on
    an int64 column.  The difference of two int64 wraps around at 64 bits;
    their quotient is the binary64 quotient of their binary64 values. *)

Inductive scalar :=
| Float64 (x : float)
| Int64 (z : Z).

(** The 64-bit two's complement value of an integer. *)
Definition wrap64 (z : Z) : Z := ((z + 2 ^ 63) mod 2 ^ 64 - 2 ^ 63)%Z.

(** The binary64 value of an integer from 0 up to 2^63 - 1, rounded to
    nearest. *)
Definition Z2float (z : Z) : float := PrimFloat.of_uint63 (Uint63.of_Z z).

(** The binary64 value of an int64, rounded to nearest. *)
Definition float_of_int64 (z : Z) : float :=
  if (z =? - 2 ^ 63)%Z then (- 0x1p63)%float
  else if (z <? 0)%Z then (- Z2float (- z))%float
  else Z2float z.

(** The integer that an entry of an int64 column stands for. *)
Definition int_of_float (x : float) : Z :=
  match Prim2SF x with
  | S754_finite s m e =>
      let v := if (0 <=? e)%Z
               then (Z.pos m * 2 ^ e)%Z
               else (Z.pos m / 2 ^ (- e))%Z in
      if s then (- v)%Z else v
  | _ => 0%Z
  end.

(** The scalar read from a column of dtype [d] whose entry is [x]. *)
Definition item (d : dtype) (x : float) : scalar :=
  match d with
  | int64 => Int64 (int_of_float x)
  | _ => Float64 x
  end.

Definition to_float64 (s : scalar) : float :=
  match s with
  | Float64 x => x
  | Int64 z => float_of_int64 z
  end.

(** [a - b]. *)
Definition subtract (a b : scalar) : scalar :=
  match a, b with
  | Int64 x, Int64 y => Int64 (wrap64 (x - y))
  | _, _ => Float64 (to_float64 a - to_float64 b)
  end.

(** ** Answers: response text and chart *)

Inductive chart :=
| scatter_matrix (dimensions : list string)
| histogram (x : string) (vline : option float) (marginal_box : bool)
| imshow_corr (labels : list string)
| scatter_ols (x y : string)
| bar (x : string)
| box (x y : string)
| imshow_crosstab (y x : string)
| line (x y : string).

(** The response is markdown text in the source.  A fixed message is kept as
    its text; a filled template is kept as its heading and the values it
    prints (the formatting of numbers is not modelled). *)
Inductive response :=
| Text (s : string)
| DataSummary (rows cols : nat)
| CentralAnalysis (k : tendency) (target_col : string) (val : float)
| ExtremeAnalysis (k : extreme) (target_col : string) (val : float)
    (rows : list (list (string * cell)))
| CorrelationAnalysis (col1 col2 : string) (coefficient : float)
| DistributionAnalysis (target_col : string) (numeric : bool)
| ComparisonNumeric (col1 col2 : string)
| ComparisonGrouped (num_col cat_col : string)
| ComparisonCrosstab (col1 col2 : string)
| TrendAnalysis (target_col time_col : string)
    (first_val last_val change : scalar) (pct_change : float)
| DataAnalysis (rows cols : nat).

Definition msg_average :=
  "I couldn't identify which numeric column you want to find the average for. Please specify a numeric column name.".
Definition msg_median :=
  "I couldn't identify which numeric column you want to find the median for. Please specify a numeric column name.".
Definition msg_maximum :=
  "I couldn't identify which numeric column you want to find the maximum for. Please specify a numeric column name.".
Definition msg_minimum :=
  "I couldn't identify which numeric column you want to find the minimum for. Please specify a numeric column name.".
Definition msg_correlation :=
  "The dataset doesn't have enough numeric columns to perform correlation analysis.".
Definition msg_distribution :=
  "I couldn't identify which column you want to analyze. Please specify a column name.".
Definition msg_comparison :=
  "I couldn't identify which columns you want to compare. Please specify both column names.".
Definition msg_trend_value :=
  "I couldn't identify which value you want to track over time. Please specify a numeric column name.".
Definition msg_trend_time :=
  "I couldn't find a suitable time or date column in the data to analyze trends.".

Definition msg_central (k : tendency) : string :=
  match k with mean => msg_average | median => msg_median end.
Definition msg_extreme (k : extreme) : string :=
  match k with maximum => msg_maximum | minimum => msg_minimum end.

(** ** Column resolution *)

(** [col.lower() in query_lower]. *)
Definition names_column (query_lower col : string) : bool :=
  Py.contains (Py.lower col) query_lower.

(** The loop [for col in cols: if col.lower() in query_lower: target_col =
    col; break], with [None] when the loop ends without a match. *)
Fixpoint find_target_col (cols : list string) (query_lower : string)
  : option string :=
  match cols with
  | [] => None
  | col :: rest =>
      if names_column query_lower col then Some col
      else find_target_col rest query_lower
  end.

(** The loop that appends every matching column to [columns_to_compare]. *)
Fixpoint columns_to_compare (cols : list string) (query_lower : string)
  : list string :=
  match cols with
  | [] => []
  | col :: rest =>
      if names_column query_lower col
      then col :: columns_to_compare rest query_lower
      else columns_to_compare rest query_lower
  end.

(** Truth value of [target_col], which is [None] or a string. *)
Definition truthy (target_col : option string) : bool :=
  match target_col with
  | None => false
  | Some c => Py.truthy c
  end.

(** ** Trend: percent change

    [((last_val - first_val) / first_val) * 100 if first_val != 0 else
    float('inf')], on two float64 and on two int64. *)

Definition pct_change (first_val last_val : float) : float :=
  if negb (first_val =? 0)%float
  then ((last_val - first_val) / first_val * 100)%float
  else infinity.

Definition pct_change_int64 (first_val last_val : Z) : float :=
  if negb (first_val =? 0)%Z
  then (float_of_int64 (wrap64 (last_val - first_val))
        / float_of_int64 first_val * 100)%float
  else infinity.

Definition scalar_pct_change (first_val last_val : scalar) : float :=
  match first_val, last_val with
  | Int64 a, Int64 b => pct_change_int64 a b
  | _, _ => pct_change (to_float64 first_val) (to_float64 last_val)
  end.

Definition date_words := ["date"; "time"; "year"; "month"; "day"].

(** [time_col] of the trend branch: the first datetime column, else the
    first column whose lowercased name contains a date word. *)
Definition trend_time_col (df : DataFrame) : option string :=
  let time_col := hd_error (datetime_cols df) in
  if negb (truthy time_col)
  then
    match find (fun col => Py.any_in date_words (Py.lower col))
               (column_names df) with
    | Some col => Some col
    | None => time_col
    end
  else time_col.

(** [target_col] of the trend branch: the first numeric column the query
    names, else the first numeric column. *)
Definition trend_target_col (df : DataFrame) (query_lower : string)
  : option string :=
  let target_col := find_target_col (numeric_cols df) query_lower in
  if negb (truthy target_col)
  then
    match numeric_cols df with
    | first :: _ => Some first
    | [] => target_col
    end
  else target_col.

(** [s.iloc[0]] and [s.iloc[-1]]. *)
Definition iloc_first (s : list float) : result float :=
  match s with
  | [] => Raise IndexError
  | x :: _ => Ok x
  end.

Definition iloc_last (s : list float) : result float :=
  match s with
  | [] => Raise IndexError
  | x :: rest => Ok (last rest x)
  end.

(** ** The functions of pandas the engine is given *)

(** [DataFrame_corr] is the entry of [df.corr()] for two columns of the
    frame, [Series_corr] is [s1.corr(s2)]: two routines of pandas. *)
Record pandas := {
  Series_mean : list float -> float;
  Series_median : list float -> float;
  Series_corr : list float -> list float -> float;
  DataFrame_corr : list float -> list float -> float;
  sort_values : DataFrame -> string -> DataFrame
}.

(** ** Correlation: the matrix and the scan for its strongest pair *)

(** [df[numeric_cols].corr()], kept as the numeric columns it was computed
    from: its labels are their names and the entry of two labels is
    [DataFrame_corr] of the two columns. *)
Definition corr_matrix (df : DataFrame) : list (string * list float) :=
  map (fun c => (name c, floats c))
      (filter (fun c => is_number (dt c)) (columns df)).

Definition matrix_columns (m : list (string * list float)) : list string :=
  map fst m.

Definition lookup (c : string) (m : list (string * list float))
  : option (list float) :=
  option_map snd (find (fun e => fst e =? c) m).

(** [corr_matrix.loc[col1, col2]]. *)
Definition corr_loc (pd : pandas) (m : list (string * list float))
  (col1 col2 : string) : result float :=
  match lookup col1 m, lookup col2 m with
  | Some s1, Some s2 => Ok (DataFrame_corr pd s1 s2)
  | _, _ => Raise KeyError
  end.

Record strongest := {
  highest_corr : float;
  col1_highest : string;
  col2_highest : string
}.

(** The inner loop [for col2 in corr_matrix.columns]. *)
Fixpoint scan_col2 (pd : pandas) (m : list (string * list float))
  (col1 : string) (cols : list string) (st : strongest) : result strongest :=
  match cols with
  | [] => Ok st
  | col2 :: rest =>
      if negb (col1 =? col2)
      then
        c <- corr_loc pd m col1 col2 ;;
        if (highest_corr st <? abs c)%float
        then scan_col2 pd m col1 rest
               {| highest_corr := abs c;
                  col1_highest := col1;
                  col2_highest := col2 |}
        else scan_col2 pd m col1 rest st
      else scan_col2 pd m col1 rest st
  end.

(** The outer loop [for col1 in corr_matrix.columns]. *)
Fixpoint scan_col1 (pd : pandas) (m : list (string * list float))
  (cols1 cols : list string) (st : strongest) : result strongest :=
  match cols1 with
  | [] => Ok st
  | col1 :: rest =>
      st' <- scan_col2 pd m col1 cols st ;;
      scan_col1 pd m rest cols st'
  end.

Definition initial : strongest :=
  {| highest_corr := 0; col1_highest := ""; col2_highest := "" |}.

Definition highest_correlation (pd : pandas) (m : list (string * list float))
  : result strongest :=
  scan_col1 pd m (matrix_columns m) (matrix_columns m) initial.

(** The column pairs in the order the two nested loops meet them. *)
Definition pairs (cols : list string) : list (string * string) :=
  filter (fun p => negb (fst p =? snd p)) (list_prod cols cols).

(** The matrix entry of two labels of the matrix (NaN for a label it does
    not have, where [corr_loc] raises). *)
Definition corr_at (pd : pandas) (m : list (string * list float))
  (p : string * string) : float :=
  match corr_loc pd m (fst p) (snd p) with
  | Ok c => c
  | Raise _ => nan
  end.

(** What the scan stores when the pair [p] replaces the current winner. *)
Definition candidate (pd : pandas) (m : list (string * list float))
  (p : string * string) : strongest :=
  {| highest_corr := abs (corr_at pd m p);
     col1_highest := fst p;
     col2_highest := snd p |}.

(** ** The engine *)

Definition answer := (response * option chart)%type.

Definition is_numeric_target (target_col : option string) (df : DataFrame)
  : bool :=
  match target_col with
  | Some c => Py.truthy c && mem c (numeric_cols df)
  | None => false
  end.

Definition central (pd : pandas) (k : tendency) : list float -> float :=
  match k with mean => Series_mean pd | median => Series_median pd end.

(** The branches for "average"/"mean" and for "median". *)
Definition central_branch (pd : pandas) (k : tendency)
  (query_lower : string) (df : DataFrame) : result answer :=
  let target_col := find_target_col (column_names df) query_lower in
  match target_col with
  | Some c =>
      if is_numeric_target target_col df
      then
        col <- getitem df c ;;
        let val := central pd k (floats col) in
        Ok (CentralAnalysis k c val, Some (histogram c (Some val) false))
      else Ok (Text (msg_central k), None)
  | None => Ok (Text (msg_central k), None)
  end.

(** The branches for "maximum"/"max" and for "minimum"/"min".  No row is
    labelled NaN, so [df.loc[NaN]] is a KeyError. *)
Definition extreme_branch (k : extreme) (query_lower : string)
  (df : DataFrame) : result answer :=
  let target_col := find_target_col (column_names df) query_lower in
  match target_col with
  | Some c =>
      if is_numeric_target target_col df
      then
        col <- getitem df c ;;
        let val := Series_extreme k (floats col) in
        label <- idxextreme k (index df) (floats col) ;;
        rows <- match label with
                | Some l => loc df l
                | None => Raise KeyError
                end ;;
        Ok (ExtremeAnalysis k c val rows, Some (histogram c (Some val) false))
      else Ok (Text (msg_extreme k), None)
  | None => Ok (Text (msg_extreme k), None)
  end.

(** The branch for "correlation"/"correlate". The heatmap is assigned to
    [visualization] first and the scatter plot is assigned over it. *)
Definition correlation_branch (pd : pandas) (df : DataFrame)
  : result answer :=
  if (2 <=? List.length (numeric_cols df))%nat
  then
    let m := corr_matrix df in
    st <- highest_correlation pd m ;;
    c <- corr_loc pd m (col1_highest st) (col2_highest st) ;;
    let response := CorrelationAnalysis (col1_highest st) (col2_highest st) c in
    let visualization := Some (imshow_corr (matrix_columns m)) in
    let visualization :=
      Some (scatter_ols (col1_highest st) (col2_highest st)) in
    Ok (response, visualization)
  else Ok (Text msg_correlation, None).

(** The branch for distribution questions.  Every column is in
    [numeric_cols] or in [categorical_cols]; the source has no [else] for a
    name in neither, which leaves the response empty. *)
Definition distribution_branch (query_lower : string) (df : DataFrame)
  : result answer :=
  let target_col := find_target_col (column_names df) query_lower in
  match target_col with
  | Some c =>
      if truthy target_col
      then
        if mem c (numeric_cols df)
        then Ok (DistributionAnalysis c true, Some (histogram c None true))
        else if mem c (categorical_cols df)
        then Ok (DistributionAnalysis c false, Some (bar c))
        else Ok (Text "", None)
      else Ok (Text msg_distribution, None)
  | None => Ok (Text msg_distribution, None)
  end.

Definition newline : string := String (ascii_of_nat 10) EmptyString.

(** The heading [## Comparison: col1 vs col2] alone, when no case applies. *)
Definition comparison_heading (col1 col2 : string) : response :=
  Text ("## Comparison: " ++ col1 ++ " vs " ++ col2 ++ newline ++ newline).

(** The three cases of a comparison of [col1] with [col2]. *)
Definition compare_two (df : DataFrame) (col1 col2 : string) : result answer :=
  let num := numeric_cols df in
  let cat := categorical_cols df in
  if mem col1 num && mem col2 num
  then Ok (ComparisonNumeric col1 col2, Some (scatter_ols col1 col2))
  else if (mem col1 cat && mem col2 num) || (mem col1 num && mem col2 cat)
  then
    let cat_col := if mem col1 cat then col1 else col2 in
    let num_col := if mem col1 cat then col2 else col1 in
    Ok (ComparisonGrouped num_col cat_col, Some (box cat_col num_col))
  else if mem col1 cat && mem col2 cat
  then Ok (ComparisonCrosstab col1 col2, Some (imshow_crosstab col1 col2))
  else Ok (comparison_heading col1 col2, None).

(** The branch for comparison questions. *)
Definition comparison_branch (query_lower : string) (df : DataFrame)
  : result answer :=
  match columns_to_compare (column_names df) query_lower with
  | col1 :: col2 :: _ => compare_two df col1 col2
  | _ => Ok (Text msg_comparison, None)
  end.

(** The branch for trend questions. *)
Definition trend_branch (pd : pandas) (query_lower : string)
  (df : DataFrame) : result answer :=
  let time_col := trend_time_col df in
  match time_col with
  | Some t =>
      if truthy time_col
      then
        let target_col := trend_target_col df query_lower in
        match target_col with
        | Some c =>
            if truthy target_col
            then
              let df_sorted := sort_values pd df t in
              col <- getitem df_sorted c ;;
              first_entry <- iloc_first (floats col) ;;
              last_entry <- iloc_last (floats col) ;;
              let first_val := item (dt col) first_entry in
              let last_val := item (dt col) last_entry in
              Ok (TrendAnalysis c t first_val last_val
                    (subtract last_val first_val)
                    (scalar_pct_change first_val last_val),
                  Some (line t c))
            else Ok (Text msg_trend_value, None)
        | None => Ok (Text msg_trend_value, None)
        end
      else Ok (Text msg_trend_time, None)
  | None => Ok (Text msg_trend_time, None)
  end.

(** The summary branch, as the heading it prints and the chart it
    chooses. *)
Definition summary_branch (df : DataFrame) : result answer :=
  Ok (DataSummary (shape0 df) (shape1 df),
      if (2 <=? List.length (numeric_cols df))%nat
      then Some (scatter_matrix (firstn 4 (numeric_cols df)))
      else None).

(** The loop of the fallback branch over [categorical_cols[:5]].  Each
    round prints [value_counts.iloc[0]], the count of the most common entry
    of the column, which is an IndexError when the column has no entry
    present. *)
Fixpoint categorical_overview (df : DataFrame) (cols : list string)
  : result unit :=
  match cols with
  | [] => Ok tt
  | c :: rest =>
      col <- getitem df c ;;
      if existsb (fun e => negb (is_missing e)) (values col)
      then categorical_overview df rest
      else Raise IndexError
  end.

(** The fallback branch, as the heading it prints and the chart it
    chooses. *)
Definition fallback_branch (df : DataFrame) : result answer :=
  printed <- categorical_overview df (firstn 5 (categorical_cols df)) ;;
  Ok (DataAnalysis (shape0 df) (shape1 df),
      if (2 <=? List.length (numeric_cols df))%nat
      then Some (imshow_corr (numeric_cols df))
      else
        match numeric_cols df with
        | first :: _ => Some (histogram first None false)
        | [] =>
            match categorical_cols df with
            | first :: _ => Some (bar first)
            | [] => None
            end
        end).

(** [query_data_with_ai(query, df)].  The data profile the source builds
    first is never read afterwards and is left out. *)
Definition query_data_with_ai (pd : pandas) (query : string) (df : DataFrame)
  : result answer :=
  let query_lower := Py.lower query in
  match branch query_lower with
  | summary => summary_branch df
  | central_tendency k => central_branch pd k query_lower df
  | extremum k => extreme_branch k query_lower df
  | correlation => correlation_branch pd df
  | statistical_none => Ok (Text "", None)
  | distribution => distribution_branch query_lower df
  | comparison => comparison_branch query_lower df
  | trend => trend_branch pd query_lower df
  | fallback => fallback_branch df
  end.

(** ** The column type classifier, [detect_data_types] *)


Inductive bucket := Numeric | Categorical | Datetime | Text_ | Boolean.

(** Distinct entries of a list, first occurrences kept. *)
Fixpoint unique {A} (eqb : A -> A -> bool) (l : list A) : list A :=
  match l with
  | [] => []
  | x :: rest => x :: filter (fun y => negb (eqb x y)) (unique eqb rest)
  end.

(** [s.dropna().unique()] of a numeric column. *)
Definition unique_floats (col : column) : list float :=
  unique PrimFloat.eqb (filter notna (floats col)).

(** The strings of an object column that are not missing. *)
Definition strings (col : column) : list string :=
  flat_map (fun c => match c with Str s => [s] | _ => [] end) (values col).

(** [s.nunique()]: missing entries are not counted. *)
Definition nunique (col : column) : nat :=
  if is_numeric_dtype (dt col)
  then List.length (unique_floats col)
  else List.length (unique String.eqb (strings col)).

(** [x in {0, 1, True, False}]: True equals 1 and False equals 0. *)
Definition in_zero_one (x : float) : bool :=
  (x =? 0)%float || (x =? 1)%float.

(** [s.str.len().mean()]: NaN (0/0) when the column has no string. *)
Definition str_len_mean (col : column) : float :=
  let lens := map String.length (strings col) in
  (Z2float (Z.of_nat (fold_left Nat.add lens 0%nat))
   / Z2float (Z.of_nat (List.length lens)))%float.

(** The if/elif chain applied to one column of a frame with [rows] rows.
    [nunique > rows * 0.5] compares an integer with a float, exactly; it is
    written [rows < 2 * nunique] on integers. *)
Definition classify (rows : nat) (col : column) : bucket :=
  if is_datetime64_dtype (dt col) then Datetime
  else if is_numeric_dtype (dt col)
  then
    if (nunique col <=? 2)%nat && forallb in_zero_one (unique_floats col)
    then Boolean
    else Numeric
  else if is_object_dtype (dt col)
  then
    if (rows <? 2 * nunique col)%nat || (50 <? str_len_mean col)%float
    then Text_
    else Categorical
  else Categorical.






(** ** A reference instance of the pandas functions

    Textbook definitions, used to run the engine on concrete frames.  The
    theorems below hold for every instance. *)

Module Reference.

Definition fsum (l : list float) : float := fold_left PrimFloat.add l 0%float.

Definition count (l : list float) : float := Z2float (Z.of_nat (List.length l)).

Definition mean_of (s : list float) : float :=
  let d := filter notna s in (fsum d / count d)%float.

Fixpoint insert (x : float) (l : list float) : list float :=
  match l with
  | [] => [x]
  | y :: rest => if (x <=? y)%float then x :: l else y :: insert x rest
  end.

Definition median_of (s : list float) : float :=
  let d := fold_right insert [] (filter notna s) in
  let n := List.length d in
  if Nat.even n
  then ((nth (n / 2 - 1) d nan + nth (n / 2) d nan) / 2)%float
  else nth (n / 2) d nan.

(** Pearson correlation over the rows where both entries are present; NaN
    when a column has no variance. *)
Definition corr_of (xs ys : list float) : float :=
  let ps := filter (fun p => notna (fst p) && notna (snd p)) (combine xs ys) in
  let x := map fst ps in
  let y := map snd ps in
  let mx := (fsum x / count x)%float in
  let my := (fsum y / count y)%float in
  let covxy := fsum (map (fun p => ((fst p - mx) * (snd p - my))%float) ps) in
  let ssx := fsum (map (fun a => ((a - mx) * (a - mx))%float) x) in
  let ssy := fsum (map (fun b => ((b - my) * (b - my))%float) y) in
  let divisor := sqrt (ssx * ssy) in
  if (divisor =? 0)%float then nan else (covxy / divisor)%float.

(** Order of the sort keys, missing entries last. *)
Definition cell_leb (a b : cell) : bool :=
  match a, b with
  | Num x, Num y => is_nan y || (x <=? y)%float
  | Stamp s, Stamp t => (s <=? t)%Z
  | Str s, Str t => String.leb s t
  | _, NA => true
  | NA, _ => false
  | _, _ => true
  end.

Fixpoint insert_key (p : nat * cell) (l : list (nat * cell))
  : list (nat * cell) :=
  match l with
  | [] => [p]
  | q :: rest =>
      if cell_leb (snd q) (snd p) then q :: insert_key p rest else p :: l
  end.

(** Stable sort of the row positions by key. *)
Definition argsort (keys : list cell) : list nat :=
  map fst (fold_left (fun acc p => insert_key p acc)
                     (enumerate_from 0 keys) []).

Definition take {A} (d : A) (perm : list nat) (l : list A) : list A :=
  map (fun p => nth p l d) perm.

Definition sort_values_by (df : DataFrame) (by_ : string) : DataFrame :=
  match getitem df by_ with
  | Ok key =>
      let perm := argsort (values key) in
      {| index := take 0%Z perm (index df);
         columns :=
           map (fun c => {| name := name c; dt := dt c;
                            values := take NA perm (values c) |})
               (columns df) |}
  | Raise _ => df
  end.

Definition pd : pandas :=
  {| Series_mean := mean_of;
     Series_median := median_of;
     Series_corr := corr_of;
     DataFrame_corr := corr_of;
     sort_values := sort_values_by |}.

End Reference.

(** ** Frames used in the examples *)

Definition numeric_column (c : string) (xs : list float) : column :=
  {| name := c; dt := float64; values := map Num xs |}.

Definition object_column (c : string) (xs : list string) : column :=
  {| name := c; dt := object_; values := map Str xs |}.

(** A frame with the default index 0, 1, 2, ... *)
Definition frame (rows : nat) (cols : list column) : DataFrame :=
  {| index := map Z.of_nat (seq 0 rows); columns := cols |}.



(** Three numeric columns whose six ordered pairs all have absolute
    correlation 1. *)
Definition tied_frame : DataFrame :=
  frame 3 [numeric_column "a" [1; 2; 3]%float;
           numeric_column "b" [2; 4; 6]%float;
           numeric_column "c" [3; 2; 1]%float].



(** The first two columns are unrelated; the third follows the first. *)
Definition swap_frame : DataFrame :=
  frame 3 [numeric_column "a" [-1; 0; 1]%float;
           numeric_column "b" [1; -2; 1]%float;
           numeric_column "c" [-2; 0; 2]%float].

(** ** The specification's wording, for comparison with the code *)

Module Spec.

(** An ordered list of (keywords, handler) pairs, evaluated in sequence:
    the first pair with a keyword in the query decides. *)
Fixpoint first_match {A} (table : list (list string * A)) (default : A)
  (q : string) : A :=
  match table with
  | [] => default
  | (words, a) :: rest =>
      if Py.any_in words q then a else first_match rest default q
  end.

Definition statistical_precedence : list (list string * intent) :=
  [ (["average"; "mean"], central_tendency mean);
    (["median"], central_tendency median);
    (["maximum"; "max"], extremum maximum);
    (["minimum"; "min"], extremum minimum);
    (["correlation"; "correlate"], correlation) ].

Definition priority : list (list string * (string -> intent)) :=
  [ (["summarize"; "summary"; "overview"; "describe"], fun _ => summary);
    (["average"; "mean"; "median"; "maximum"; "minimum"; "correlation";
      "correlate"],
     first_match statistical_precedence statistical_none);
    (["distribution"; "histogram"; "spread"; "range"], fun _ => distribution);
    (["compare"; "comparison"; "difference"; "versus"; "vs"],
     fun _ => comparison);
    (["trend"; "time"; "over time"; "change"; "evolution"], fun _ => trend) ].

Definition classify_intent (query_text : string) : intent :=
  let q := Py.lower query_text in
  first_match priority (fun _ => fallback) q q.

(** [resolve(query_text, column_names, required_count)]: the matches in
    dataset order, up to [required_count]. *)
Definition resolve (query_text : string) (column_names : list string)
  (required_count : nat) : list string :=
  firstn required_count
    (filter (fun c => Py.contains (Py.lower c) (Py.lower query_text))
            column_names).


(** The intents that need the query to name a column, each with the fixed
    message it answers when the column cannot be identified. *)
Definition unresolved_message (i : intent) : option string :=
  match i with
  | central_tendency k => Some (msg_central k)
  | extremum k => Some (msg_extreme k)
  | distribution => Some msg_distribution
  | comparison => Some msg_comparison
  | _ => None
  end.

(** The intents that need a numeric column: mean, median, maximum, minimum. *)
Definition numeric_message (i : intent) : option string :=
  match i with
  | central_tendency k => Some (msg_central k)
  | extremum k => Some (msg_extreme k)
  | _ => None
  end.

End Spec.

(** ** Filtering rows, [filter_data] *)

(** Equality of two entries as [isin] tests it: numbers by value, strings
    and timestamps by identity, and a missing entry matches a missing one. *)
Definition cell_eqb (a b : cell) : bool :=
  match a, b with
  | Num x, Num y => (x =? y)%float || (is_nan x && is_nan y)
  | Str s, Str t => (s =? t)%string
  | Stamp s, Stamp t => (s =? t)%Z
  | NA, NA => true
  | NA, Num y => is_nan y
  | Num x, NA => is_nan x
  | _, _ => false
  end.

(** [s.isin(vals)] on one entry. *)
Definition isin (vals : list cell) (c : cell) : bool :=
  existsb (cell_eqb c) vals.

(** [l[mask]]: the entries of [l] where the mask is True. *)
Fixpoint select {A} (mask : list bool) (l : list A) : list A :=
  match mask, l with
  | b :: mask', x :: l' =>
      if b then x :: select mask' l' else select mask' l'
  | _, _ => []
  end.

(** [df[mask]]: the rows where the mask is True, with their labels. *)
Definition take_rows (mask : list bool) (df : DataFrame) : DataFrame :=
  {| index := select mask (index df);
     columns :=
       map (fun c => {| name := name c; dt := dt c;
                        values := select mask (values c) |})
           (columns df) |}.

(** [filter_data(df, column, values)], that is
    [df[df[column].isin(values)]]. *)
Definition filter_data (df : DataFrame) (column : string) (vals : list cell)
  : result DataFrame :=
  key <- getitem df column ;;
  Ok (take_rows (map (isin vals) (values key)) df).

(** All columns have one entry per row label. *)
Definition well_formed (df : DataFrame) : Prop :=
  forall c, In c (columns df) ->
            List.length (values c) = List.length (index df).

(** ** Cleaning, [process_data] *)

Definition is_digit (c : ascii) : bool :=
  let n := nat_of_ascii c in (48 <=? n)%nat && (n <=? 57)%nat.

(** One position of a pattern: a digit ([\d]) or a literal character. *)
Inductive atom := digit | lit (c : ascii).

(** [re.match(pattern, s)] for a pattern that is a sequence of atoms: the
    pattern has to match at the start of [s]. *)
Fixpoint re_match (pattern : list atom) (s : string) : bool :=
  match pattern with
  | [] => true
  | a :: pattern' =>
      match s with
      | EmptyString => false
      | String c s' =>
          match a with
          | digit => is_digit c
          | lit l => Ascii.eqb l c
          end && re_match pattern' s'
      end
  end.

(** [^\d{4}-\d{2}-\d{2}], [^\d{2}/\d{2}/\d{4}] and [^\d{2}-\d{2}-\d{4}]. *)
Definition year_first : list atom :=
  [digit; digit; digit; digit; lit "-"; digit; digit; lit "-"; digit; digit].
Definition slashes : list atom :=
  [digit; digit; lit "/"; digit; digit; lit "/"; digit; digit; digit; digit].
Definition year_last : list atom :=
  [digit; digit; lit "-"; digit; digit; lit "-"; digit; digit; digit; digit].

(** Does the entry, written as a string, start like a date?  A timestamp
    is written year first; a missing entry is written "nan". *)
Definition date_like (c : cell) : bool :=
  match c with
  | Str s => re_match year_first s || re_match slashes s || re_match year_last s
  | Stamp _ => true
  | _ => false
  end.

(** The first loop: an object column with a date-like entry is replaced by
    [pd.to_datetime(column, errors='coerce')]; when that raises, the bare
    [except] leaves the column as it is.  [to_datetime] is pandas' own and
    is a parameter. *)
Definition convert_dates (to_datetime : list cell -> result (list cell))
  (col : column) : column :=
  if is_object_dtype (dt col) && existsb date_like (values col)
  then
    match to_datetime (values col) with
    | Ok v => {| name := name col; dt := datetime64; values := v |}
    | Raise _ => col
    end
  else col.

(** [s.fillna(v)]. *)
Definition fillna (v : cell) (s : list cell) : list cell :=
  map (fun c => if is_missing c then v else c) s.

Definition count_cell (c : cell) (s : list cell) : nat :=
  List.length (filter (cell_eqb c) s).

Definition cell_ltb (a b : cell) : bool :=
  match a, b with
  | Num x, Num y => (x <? y)%float
  | Str s, Str t => String.ltb s t
  | Stamp s, Stamp t => (s <? t)%Z
  | _, _ => false
  end.

(** [s.mode()[0]]: of the entries that occur most often, the smallest;
    nothing when every entry is missing. *)
Definition more_frequent (s : list cell) (best c : cell) : cell :=
  if (count_cell best s <? count_cell c s)%nat
     || ((count_cell best s =? count_cell c s)%nat && cell_ltb c best)
  then c
  else best.

Definition Series_mode (s : list cell) : option cell :=
  match filter (fun c => negb (is_missing c)) s with
  | [] => None
  | x :: rest => Some (fold_left (more_frequent s) rest x)
  end.

(** The second loop, on one column: the missing entries of a numeric
    column get its median; those of another column get its mode, or
    "Unknown" when nothing is present. *)
Definition fill_missing (pd : pandas) (numeric : list string) (col : column)
  : column :=
  if mem (name col) numeric
  then
    if existsb is_missing (values col)
    then {| name := name col; dt := dt col;
            values := fillna (Num (Series_median pd (floats col)))
                             (values col) |}
    else col
  else
    if existsb is_missing (values col)
    then
      match Series_mode (values col) with
      | Some mode_val =>
          {| name := name col; dt := dt col;
             values := fillna mode_val (values col) |}
      | None =>
          {| name := name col;
             dt := if is_datetime64_dtype (dt col) then object_ else dt col;
             values := fillna (Str "Unknown") (values col) |}
      end
    else col.

(** [process_data(df)]. *)
Definition process_data (pd : pandas)
  (to_datetime : list cell -> result (list cell)) (df : DataFrame)
  : DataFrame :=
  {| index := index df;
     columns :=
       map (fun col =>
              fill_missing pd (numeric_cols df)
                (convert_dates to_datetime col))
           (columns df) |}.

(** A reference [to_datetime], used to run [process_data] on concrete
    frames: a string that starts year first becomes the timestamp its
    digits spell, anything else that is not a timestamp becomes missing. *)
Module Cleaning.

Fixpoint digits (n : nat) (s : string) (acc : Z) : Z :=
  match n, s with
  | S n', String c s' =>
      digits n' s'
        (if is_digit c
         then (acc * 10 + (Z.of_nat (nat_of_ascii c) - 48))%Z
         else acc)
  | _, _ => acc
  end.

Definition to_datetime_of (s : list cell) : result (list cell) :=
  Ok (map (fun c =>
             match c with
             | Str d =>
                 if re_match year_first d then Stamp (digits 10 d 0) else NA
             | Stamp t => Stamp t
             | _ => NA
             end) s).

End Cleaning.

(** A frame with gaps: dates with one missing and one unreadable entry, a
    numeric column with one gap, and a numeric column with nothing in it. *)
Definition gappy_frame : DataFrame :=
  frame 3 [ {| name := "day"; dt := object_;
               values := [Str "2024-01-02"; NA; Str "soon"] |};
            {| name := "sales"; dt := float64;
               values := [Num 1; Num nan; Num 3] |};
            {| name := "void"; dt := float64;
               values := [Num nan; Num nan; Num nan] |} ].

(** ** Summary table, [get_summary_stats] *)

(** What the table needs of pandas and Python besides [pandas]: rounding
    to 2 decimals, the standard deviation, and the most common entry of a
    column written as a string ([str(s.value_counts().index[0])], nothing
    when the column has no entry). *)
Record summary_tools := {
  round2 : float -> float;
  Series_std : list float -> float;
  most_common : list cell -> option string
}.

(** One row of the table that is returned, [pd.DataFrame(summary_data)].
    A field is [None] where the table has a missing entry: the dict of the
    row holds [None] under that key or lacks the key, and the DataFrame
    shows NaN there (or None, in a column where no row has a value). *)
Record stats_row := {
  Column : string;
  Type_ : string;
  Count : nat;
  Missing : nat;
  Unique_Values : option nat;
  Most_Common : option string;
  Mean : option float;
  Median : option float;
  Min : option float;
  Max : option float;
  StdDev : option float
}.

(** [s.count()] and [s.isna().sum()]. *)
Definition count_present (s : list cell) : nat :=
  List.length (filter (fun c => negb (is_missing c)) s).
Definition count_missing (s : list cell) : nat :=
  List.length (filter is_missing s).

(** [s.nunique()] of any column: the distinct entries that are present. *)
Definition nunique_cells (s : list cell) : nat :=
  List.length (unique cell_eqb (filter (fun c => negb (is_missing c)) s)).

(** [round(x, 2) if not pd.isna(x) else None]: a missing entry of the
    table when [x] is NaN. *)
Definition rounded (t : summary_tools) (x : float) : option float :=
  if is_nan x then None else Some (round2 t x).

(** [str(v)[:20] + ('...' if len(str(v)) > 20 else '')]. *)
Definition shorten (s : string) : string :=
  substring 0 20 s ++ (if (20 <? String.length s)%nat then "..." else "").

Definition numeric_row (pd : pandas) (t : summary_tools) (col : column)
  : stats_row :=
  {| Column := name col;
     Type_ := "Numeric";
     Count := count_present (values col);
     Missing := count_missing (values col);
     Unique_Values := None;
     Most_Common := None;
     Mean := rounded t (Series_mean pd (floats col));
     Median := rounded t (Series_median pd (floats col));
     Min := rounded t (Series_min (floats col));
     Max := rounded t (Series_max (floats col));
     StdDev := rounded t (Series_std t (floats col)) |}.

Definition categorical_row (t : summary_tools) (col : column) : stats_row :=
  {| Column := name col;
     Type_ := if is_datetime64_dtype (dt col)
              then "DateTime" else "Categorical";
     Count := count_present (values col);
     Missing := count_missing (values col);
     Unique_Values := Some (nunique_cells (values col));
     Most_Common :=
       Some (shorten (match most_common t (values col) with
                      | Some s => s
                      | None => "None"
                      end));
     Mean := None;
     Median := None;
     Min := None;
     Max := None;
     StdDev := None |}.

(** [get_summary_stats(df)]: the rows of the table, those of the numeric
    columns first, then those of the other columns. *)
Definition get_summary_stats (pd : pandas) (t : summary_tools)
  (df : DataFrame) : list stats_row :=
  (map (numeric_row pd t)
       (filter (fun c => is_number (dt c)) (columns df))
   ++ map (categorical_row t)
          (filter (fun c => negb (is_number (dt c))) (columns df)))%list.

(** A reference instance for running the table: no rounding, the sample
    standard deviation, the first entry present as the most common one. *)
Module Summary.

Definition std_of (s : list float) : float :=
  let d := filter notna s in
  let m := (Reference.fsum d / Reference.count d)%float in
  sqrt (Reference.fsum (map (fun x => ((x - m) * (x - m))%float) d)
        / (Reference.count d - 1))%float.

Definition first_present (s : list cell) : option string :=
  match filter (fun c => negb (is_missing c)) s with
  | Str v :: _ => Some v
  | _ => None
  end.

Definition tools : summary_tools :=
  {| round2 := fun x => x;
     Series_std := std_of;
     most_common := first_present |}.

End Summary.

(** ** The data profile, [create_data_profile]

    The profile is text in the source; here it is what the text is written
    from: the shape, one description per column, and the notable
    relationships. *)

Inductive column_info :=
| CategoricalNumeric (col : string) (unique_count missing : nat)
    (missing_pct : float)
| NumericRange (col : string) (min max mean_val median_val : float)
    (missing : nat) (missing_pct : float)
| DatetimeRange (col : string) (earliest latest : option Z)
    (missing : nat) (missing_pct : float)
| CategoricalExamples (col : string) (unique_count : nat)
    (examples : list cell) (missing : nat) (missing_pct : float)
| TextCategorical (col : string) (unique_count missing : nat)
    (missing_pct : float).

(** [(missing / len(df)) * 100], a float division: NaN on a frame without
    rows. *)
Definition missing_percent (missing rows : nat) : float :=
  (Z2float (Z.of_nat missing) / Z2float (Z.of_nat rows) * 100)%float.

Definition stamps (s : list cell) : list Z :=
  flat_map (fun c => match c with Stamp t => [t] | _ => [] end) s.

(** [s.min()] and [s.max()] of a datetime column: nothing (NaT) when no
    entry is present. *)
Definition earliest_stamp (s : list cell) : option Z :=
  match stamps s with
  | [] => None
  | t :: rest => Some (fold_left Z.min rest t)
  end.
Definition latest_stamp (s : list cell) : option Z :=
  match stamps s with
  | [] => None
  | t :: rest => Some (fold_left Z.max rest t)
  end.

(** The number of distinct entries present, as [s.nunique()] counts them
    for a column of any dtype. *)
Definition nunique_of (col : column) : nat :=
  if is_numeric_dtype (dt col)
  then nunique col
  else nunique_cells (values col).

(** The description of one column. *)
Definition describe (pd : pandas) (rows : nat) (col : column) : column_info :=
  let missing := count_missing (values col) in
  let missing_pct := missing_percent missing rows in
  if is_numeric_dtype (dt col)
  then
    if (nunique_of col <=? 5)%nat
    then CategoricalNumeric (name col) (nunique_of col) missing missing_pct
    else NumericRange (name col)
           (Series_min (floats col)) (Series_max (floats col))
           (Series_mean pd (floats col)) (Series_median pd (floats col))
           missing missing_pct
  else if is_datetime64_dtype (dt col)
  then DatetimeRange (name col)
         (earliest_stamp (values col)) (latest_stamp (values col))
         missing missing_pct
  else
    if (nunique_of col <=? 10)%nat
    then CategoricalExamples (name col) (nunique_of col)
           (firstn 5 (unique cell_eqb
                        (filter (fun c => negb (is_missing c)) (values col))))
           missing missing_pct
    else TextCategorical (name col) (nunique_of col) missing missing_pct.

(** The pairs [(cols[i], cols[j])] with [i < j], in the order of the two
    loops. *)
Fixpoint later_pairs (cols : list string) : list (string * string) :=
  match cols with
  | [] => []
  | c :: rest => (map (fun d => (c, d)) rest ++ later_pairs rest)%list
  end.

(** [df[col1].corr(df[col2])] for two column names of the frame (NaN
    stands in for a name the frame lacks, which the loops never produce). *)
Definition corr_of_names (pd : pandas) (df : DataFrame) (p : string * string)
  : float :=
  match getitem df (fst p), getitem df (snd p) with
  | Ok a, Ok b => Series_corr pd (floats a) (floats b)
  | _, _ => nan
  end.

Definition strength (e : string * string * float) : float := snd e.

(** The list [correlations]: each pair with the absolute value of its
    correlation, the undefined ones left out. *)
Definition correlations (pd : pandas) (df : DataFrame)
  : list (string * string * float) :=
  map (fun p => (p, abs (corr_of_names pd df p)))
      (filter (fun p => negb (is_nan (corr_of_names pd df p)))
              (later_pairs (numeric_cols df))).

(** [list.sort(key=strength, reverse=True)]: strongest first, entries of
    equal strength in their original order. *)
Fixpoint insert_desc (x : string * string * float)
  (l : list (string * string * float)) : list (string * string * float) :=
  match l with
  | [] => [x]
  | y :: rest =>
      if (strength y <? strength x)%float
      then x :: l
      else y :: insert_desc x rest
  end.

Definition sort_desc (l : list (string * string * float))
  : list (string * string * float) :=
  fold_left (fun acc x => insert_desc x acc) l [].

(** [correlations[:5]] after the sort. *)
Definition top_correlations (pd : pandas) (df : DataFrame)
  : list (string * string * float) :=
  firstn 5 (sort_desc (correlations pd df)).

Record data_profile := {
  profile_rows : nat;
  profile_cols : nat;
  column_details : list column_info;
  relationships : list (string * string * float)
}.

(** [create_data_profile(df)]. *)
Definition create_data_profile (pd : pandas) (df : DataFrame) : data_profile :=
  {| profile_rows := shape0 df;
     profile_cols := shape1 df;
     column_details := map (describe pd (shape0 df)) (columns df);
     relationships :=
       if (2 <=? List.length (numeric_cols df))%nat
       then top_correlations pd df
       else [] |}.


(** ** Chart options, [get_visualization_options] *)

(** What an option offers: a list to choose one entry from, a list to
    choose several from, a checkbox, or a slider. *)
Inductive option_value :=
| choices (l : list string)
| multiselect (options : list string)
| checkbox (default : bool)
| slider (min max default : float).

(* The pie chart's hole goes up to 0.8, the binary64 value
   0x1.999999999999ap-1. *)

(** The dict of one chart type, and the dict of chart types, each in
    insertion order. *)
Definition chart_options := list (string * option_value).

(** [get_visualization_options(df)]. *)
Definition get_visualization_options (df : DataFrame)
  : list (string * chart_options) :=
  let num := numeric_cols df in
  let cat := categorical_cols df in
  let dat := datetime_cols df in
  let hover := ("hover_data", multiselect (column_names df)) in
  ((if (2 <=? List.length num)%nat
    then [("scatter_plot",
           [("x", choices num);
            ("y", choices num);
            ("color", choices ("None" :: cat ++ num));
            ("size", choices ("None" :: num));
            hover;
            ("trendline", checkbox false)])]
    else [])
   ++ (if (1 <=? List.length num)%nat
       then [("line_chart",
              [("x", choices (dat ++ num ++ cat));
               ("y", choices num);
               ("color", choices ("None" :: cat));
               ("line_group", choices ("None" :: cat));
               hover])]
       else [])
   ++ (if (1 <=? List.length cat)%nat && (1 <=? List.length num)%nat
       then [("bar_chart",
              [("x", choices (cat ++ num));
               ("y", choices (num ++ cat));
               ("color", choices ("None" :: cat));
               ("barmode", choices ["group"; "stack"; "relative"]);
               hover])]
       else [])
   ++ (if (1 <=? List.length num)%nat
       then [("histogram",
              [("x", choices (num ++ cat));
               ("color", choices ("None" :: cat));
               ("nbins", slider 5 100 20);
               ("histnorm",
                choices [""; "percent"; "probability"; "density";
                         "probability density"])])]
       else [])
   ++ (if (1 <=? List.length num)%nat
       then [("box_plot",
              [("x", choices ("None" :: cat));
               ("y", choices num);
               ("color", choices ("None" :: cat));
               ("notched", checkbox false);
               hover])]
       else [])
   ++ (if (1 <=? List.length cat)%nat && (1 <=? List.length num)%nat
       then [("pie_chart",
              [("names", choices cat);
               ("values", choices num);
               ("hole", slider 0 0x1.999999999999ap-1 0);
               hover])]
       else [])
   ++ (if (2 <=? List.length cat + List.length dat)%nat
          && (1 <=? List.length num)%nat
       then [("heatmap",
              [("x", choices (cat ++ dat));
               ("y", choices (cat ++ dat));
               ("z", choices num);
               ("colorscale",
                choices ["Viridis"; "Plasma"; "Inferno"; "Magma"; "Cividis";
                         "Blues"; "Reds"; "Greens"])])]
       else [])
   ++ (if (3 <=? List.length num)%nat
       then [("bubble_chart",
              [("x", choices num);
               ("y", choices num);
               ("size", choices num);
               ("color", choices ("None" :: cat ++ num));
               hover])]
       else [])
   ++ (if (3 <=? List.length num)%nat
       then [("scatter_matrix",
              [("dimensions", multiselect num);
               ("color", choices ("None" :: cat));
               hover])]
       else []))%list.

(** The chart types on offer. *)
Definition offered (df : DataFrame) : list string :=
  map fst (get_visualization_options df).

(** The entries an option lets the user pick a column from. *)
Definition entries (v : option_value) : list string :=
  match v with
  | choices l => l
  | multiselect l => l
  | _ => []
  end.

(** The options that list columns; the others list fixed settings. *)
Definition column_option (key : string) : bool :=
  negb (mem key ["barmode"; "histnorm"; "colorscale"]).

(** ** Short numbers, [format_large_number] *)

Definition suffixes : list string := [""; "K"; "M"; "B"; "T"].

(** The loop [while abs(num) >= 1000 and magnitude < len(suffixes) - 1],
    run for at most [fuel] rounds. *)
Fixpoint scale (fuel magnitude : nat) (num : float) : nat * float :=
  match fuel with
  | O => (magnitude, num)
  | S fuel' =>
      if (1000 <=? abs num)%float
         && (magnitude <? List.length suffixes - 1)%nat
      then scale fuel' (S magnitude) (num / 1000)%float
      else (magnitude, num)
  end.

(** [num] after [k] rounds of [num /= 1000.0]. *)
Definition scaled_by (k : nat) (num : float) : float :=
  Nat.iter k (fun y => (y / 1000)%float) num.

(** [format_large_number(num)]: the string [f"{num:.1f}{suffixes[magnitude]}"]
    for the scaled number.  The format [.1f] is Python's and is a
    parameter. *)
Definition format_large_number (format_1f : float -> string) (num : float)
  : result string :=
  let (magnitude, scaled) := scale (List.length suffixes) 0 num in
  match nth_error suffixes magnitude with
  | Some suffix => Ok (format_1f scaled ++ suffix)
  | None => Raise IndexError
  end.

(** A reference [.1f], used to run [format_large_number]: the value is
    rounded to the nearest tenth, a tie going to the even tenth, and written
    with its sign, its integer part and one decimal. *)
Module Printing.

(** [n / d] rounded to the nearest integer, ties to even, for [n >= 0] and
    [d > 0]. *)
Definition half_even (n d : Z) : Z :=
  let q := (n / d)%Z in
  match (2 * (n mod d) ?= d)%Z with
  | Lt => q
  | Gt => (q + 1)%Z
  | Eq => if Z.even q then q else (q + 1)%Z
  end.

(** The number of tenths nearest to [m * 2^e]. *)
Definition tenths (m : positive) (e : Z) : Z :=
  if (0 <=? e)%Z
  then (Z.pos m * 2 ^ e * 10)%Z
  else half_even (Z.pos m * 10) (2 ^ (- e)).

Definition decimal (n : Z) : string :=
  NilZero.string_of_uint (N.to_uint (Z.to_N n)).

Definition fixed1 (x : float) : string :=
  match Prim2SF x with
  | S754_nan => "nan"
  | S754_infinity s => if s then "-inf" else "inf"
  | S754_zero s => (if s then "-" else "") ++ "0.0"
  | S754_finite s m e =>
      let t := tenths m e in
      (if s then "-" else "")
      ++ decimal (t / 10) ++ "." ++ decimal (t mod 10)
  end.

End Printing.

(** ** Order facts on binary64 values

    The comparisons of [float] are specified through [Prim2SF] by the
    library; the facts below are what the scans for an extreme value need:
    [<?] is a strict weak order on the values that are not NaN. *)

Module FloatOrder.

Ltac cases_bool := repeat match goal with b : bool |- _ => destruct b end.
Ltac cmpZ a b := destruct (Z.compare_spec a b).
Ltac cmpP a b := fold (Pos.compare a b) in *; destruct (Pos.compare_spec a b).

Lemma SFcompare_trans x y z :
  SFcompare x y = Some Lt -> SFcompare y z = Some Lt ->
  SFcompare x z = Some Lt.
Proof.
  destruct x as [sx|sx| |sx mx ex], y as [sy|sy| |sy my ey],
    z as [sz|sz| |sz mz ez];
    simpl; try discriminate; try reflexivity; cases_bool;
    try discriminate; try reflexivity; intros H1 H2.
  all: cmpZ ex ey; cmpZ ey ez; try discriminate;
    cmpZ ex ez; try lia; try reflexivity; subst.
  all: cmpP mx my; cmpP my mz; try discriminate;
    cmpP mx mz; try lia; try reflexivity; simpl in *; try discriminate.
Qed.

Lemma SFcompare_split x y z :
  SFcompare x z = Some Lt -> y <> S754_nan ->
  SFcompare x y = Some Lt \/ SFcompare y z = Some Lt.
Proof.
  destruct x as [sx|sx| |sx mx ex], y as [sy|sy| |sy my ey],
    z as [sz|sz| |sz mz ez];
    simpl; try discriminate; try congruence; cases_bool;
    try discriminate; try (left; reflexivity); try (right; reflexivity);
    intros H1 _.
  all: cmpZ ex ez; try discriminate; cmpZ ex ey; cmpZ ey ez;
    try lia; try (left; reflexivity); try (right; reflexivity); subst.
  all: cmpP mx mz; simpl in *; try discriminate; cmpP mx my; cmpP my mz;
    simpl; try lia; try (left; reflexivity); try (right; reflexivity).
Qed.

Lemma SFcompare_refl x : x <> S754_nan -> SFcompare x x = Some Eq.
Proof.
  destruct x as [s|s| |s m e]; simpl; try congruence; intros _.
  - destruct s; reflexivity.
  - destruct s; rewrite Z.compare_refl; fold (Pos.compare m m);
      rewrite Pos.compare_refl; reflexivity.
Qed.


Lemma is_nan_false x : is_nan x = false <-> Prim2SF x <> S754_nan.
Proof.
  unfold is_nan. rewrite eqb_spec. unfold SFeqb. split.
  - intros H E. rewrite E in H. simpl in H. discriminate.
  - intros H. rewrite SFcompare_refl by assumption. reflexivity.
Qed.

Lemma ltb_trans x y z :
  (x <? y)%float = true -> (y <? z)%float = true -> (x <? z)%float = true.
Proof.
  rewrite !ltb_spec. unfold SFltb.
  destruct (SFcompare (Prim2SF x) (Prim2SF y)) as [[]|] eqn:E1;
    try discriminate.
  destruct (SFcompare (Prim2SF y) (Prim2SF z)) as [[]|] eqn:E2;
    try discriminate.
  intros _ _. rewrite (SFcompare_trans _ _ _ E1 E2). reflexivity.
Qed.

Lemma ltb_split x y z :
  (x <? z)%float = true -> is_nan y = false ->
  (x <? y)%float = true \/ (y <? z)%float = true.
Proof.
  rewrite !ltb_spec, is_nan_false. unfold SFltb.
  destruct (SFcompare (Prim2SF x) (Prim2SF z)) as [[]|] eqn:E;
    try discriminate.
  intros _ Hy. destruct (SFcompare_split _ _ _ E Hy) as [H|H];
    rewrite H; auto.
Qed.

Lemma ltb_irrefl x : (x <? x)%float = false.
Proof.
  rewrite ltb_spec. unfold SFltb.
  destruct (Prim2SF x) as [s|s| |s m e]; try reflexivity;
    rewrite SFcompare_refl by discriminate; reflexivity.
Qed.



(** [y] is not above [x]: the scan keeps [x]. *)
Lemma ltb_false_trans x y z :
  (x <? y)%float = false -> (y <? z)%float = false ->
  is_nan y = false -> (x <? z)%float = false.
Proof.
  intros Hxy Hyz Hy. destruct (x <? z)%float eqn:E; [|reflexivity].
  destruct (ltb_split _ _ _ E Hy); congruence.
Qed.



Lemma is_nan_true x : is_nan x = true -> Prim2SF x = S754_nan.
Proof.
  intros H. destruct (Prim2SF x) eqn:E; try reflexivity;
    assert (N : is_nan x = false)
      by (apply is_nan_false; rewrite E; discriminate);
    congruence.
Qed.

Lemma eqb_nan_l x y : is_nan x = true -> (x =? y)%float = false.
Proof.
  intros H. rewrite eqb_spec, (is_nan_true x H). reflexivity.
Qed.

End FloatOrder.

(** ** Intent classification *)

Lemma lower_ascii_idempotent c :
  Py.lower_ascii (Py.lower_ascii c) = Py.lower_ascii c.
Proof.
  destruct c as [b0 b1 b2 b3 b4 b5 b6 b7].
  destruct b0, b1, b2, b3, b4, b5, b6, b7; reflexivity.
Qed.

Lemma lower_idempotent s : Py.lower (Py.lower s) = Py.lower s.
Proof.
  induction s as [|c s IH]; simpl.
  - reflexivity.
  - rewrite lower_ascii_idempotent, IH. reflexivity.
Qed.

Lemma statistical_dispatch_fires q :
  Py.any_in statistical_words q = true ->
  statistical_dispatch q <> statistical_none.
Proof.
  unfold Py.any_in, statistical_words, statistical_dispatch. simpl.
  destruct (Py.contains "average" q), (Py.contains "mean" q),
    (Py.contains "median" q), (Py.contains "maximum" q),
    (Py.contains "max" q), (Py.contains "minimum" q),
    (Py.contains "min" q), (Py.contains "correlation" q),
    (Py.contains "correlate" q); simpl; intros H; try discriminate H;
    discriminate.
Qed.

Lemma branch_never_empty q : branch q <> statistical_none.
Proof.
  unfold branch.
  destruct (Py.any_in summary_words q); [discriminate|].
  destruct (Py.any_in statistical_words q) eqn:E.
  - apply statistical_dispatch_fires, E.
  - destruct (Py.any_in distribution_words q); [discriminate|].
    destruct (Py.any_in comparison_words q); [discriminate|].
    destruct (Py.any_in trend_words q); discriminate.
Qed.

Lemma statistical_dispatch_table q :
  statistical_dispatch q
  = Spec.first_match Spec.statistical_precedence statistical_none q.
Proof.
  unfold statistical_dispatch, Spec.statistical_precedence, Py.any_in.
  simpl. rewrite !orb_false_r. reflexivity.
Qed.

Lemma branch_table q :
  branch q = Spec.first_match Spec.priority (fun _ => fallback) q q.
Proof.
  unfold branch, Spec.priority. cbn [Spec.first_match].
  fold summary_words statistical_words distribution_words comparison_words
    trend_words.
  destruct (Py.any_in summary_words q); [reflexivity|].
  destruct (Py.any_in statistical_words q);
    [apply statistical_dispatch_table|].
  destruct (Py.any_in distribution_words q); [reflexivity|].
  destruct (Py.any_in comparison_words q); [reflexivity|].
  destruct (Py.any_in trend_words q); reflexivity.
Qed.

(** C1.  Intent classification is total and deterministic.  For every query
    the branch taken by the code is the one the priority table selects:
    summary, then statistical, then distribution, comparison, trend, and
    fallback last, first match first, on the lowercased query; inside the
    statistical branch "average"/"mean" come before "median", then
    "maximum"/"max", then "minimum"/"min", then "correlation"/"correlate",
    and one of them always fires.  The letter case of the query does not
    matter, and "show me the mean and correlation" is the mean. *)
Theorem intent_classification :
  (forall q, resolve_intent q = Spec.classify_intent q)
  /\ (forall q, resolve_intent q <> statistical_none)
  /\ (forall q, resolve_intent (Py.lower q) = resolve_intent q)
  /\ resolve_intent "show me the mean and correlation"
     = central_tendency mean
  /\ resolve_intent "SHOW ME THE MEAN AND CORRELATION"
     = central_tendency mean.
Proof.
  repeat split.
  - intros q. apply branch_table.
  - intros q. apply branch_never_empty.
  - intros q. unfold resolve_intent. rewrite lower_idempotent. reflexivity.
Qed.

(** ** Column resolution *)

Lemma columns_to_compare_filter names ql :
  columns_to_compare names ql = filter (names_column ql) names.
Proof.
  induction names as [|c names IH]; simpl.
  - reflexivity.
  - rewrite IH. reflexivity.
Qed.

Lemma find_target_col_filter names ql :
  find_target_col names ql = hd_error (filter (names_column ql) names).
Proof.
  induction names as [|c names IH]; simpl.
  - reflexivity.
  - destruct (names_column ql c); [reflexivity | exact IH].
Qed.

Lemma find_target_col_skip pre a rest ql :
  (forall p, In p pre -> names_column ql p = false) ->
  names_column ql a = true ->
  find_target_col (pre ++ a :: rest) ql = Some a.
Proof.
  intros Hpre Ha. induction pre as [|p pre IH]; simpl.
  - rewrite Ha. reflexivity.
  - rewrite (Hpre p) by (left; reflexivity).
    apply IH. intros p' Hp'. apply Hpre. right. exact Hp'.
Qed.

Lemma find_target_col_none names ql :
  (forall c, In c names -> names_column ql c = false) ->
  find_target_col names ql = None.
Proof.
  induction names as [|c names IH]; simpl; intros H.
  - reflexivity.
  - rewrite (H c) by (left; reflexivity).
    apply IH. intros c' Hc'. apply H. right. exact Hc'.
Qed.

Lemma columns_to_compare_none names ql :
  (forall c, In c names -> names_column ql c = false) ->
  columns_to_compare names ql = [].
Proof.
  induction names as [|c names IH]; simpl; intros H.
  - reflexivity.
  - rewrite (H c) by (left; reflexivity).
    apply IH. intros c' Hc'. apply H. right. exact Hc'.
Qed.

Lemma resolve_one q names :
  Spec.resolve q names 1
  = match find_target_col names (Py.lower q) with
    | Some c => [c]
    | None => []
    end.
Proof.
  unfold Spec.resolve. rewrite find_target_col_filter.
  fold (names_column (Py.lower q)).
  destruct (filter (names_column (Py.lower q)) names) as [|c l]; reflexivity.
Qed.

Lemma comparison_branch_resolve q df :
  comparison_branch (Py.lower q) df
  = match Spec.resolve q (column_names df) 2 with
    | [col1; col2] => compare_two df col1 col2
    | _ => Ok (Text msg_comparison, None)
    end.
Proof.
  unfold comparison_branch, Spec.resolve.
  rewrite columns_to_compare_filter. fold (names_column (Py.lower q)).
  destruct (filter (names_column (Py.lower q)) (column_names df))
    as [|c1 [|c2 l]]; reflexivity.
Qed.

(** C5.  Column resolution walks the column names in dataset order and a
    column is selected exactly when its lowercased name is a substring of
    the lowercased query.  A single-column intent takes the first match: a
    matching column wins over every column after it, whatever their names,
    so of two matching columns where one name contains the other the
    earlier one is chosen.  A comparison takes the first two matches, in
    dataset order, as (col1, col2). *)
Theorem column_resolution :
  (forall names q c,
      In c (columns_to_compare names (Py.lower q))
      <-> In c names /\ Py.contains (Py.lower c) (Py.lower q) = true)
  /\ (forall names q,
        columns_to_compare names (Py.lower q)
        = filter (fun c => Py.contains (Py.lower c) (Py.lower q)) names)
  /\ (forall names q,
        Spec.resolve q names 1
        = match find_target_col names (Py.lower q) with
          | Some c => [c]
          | None => []
          end)
  /\ (forall pre a rest q,
        (forall p, In p pre ->
                   Py.contains (Py.lower p) (Py.lower q) = false) ->
        Py.contains (Py.lower a) (Py.lower q) = true ->
        find_target_col (pre ++ a :: rest) (Py.lower q) = Some a)
  /\ (forall q df,
        comparison_branch (Py.lower q) df
        = match Spec.resolve q (column_names df) 2 with
          | [col1; col2] => compare_two df col1 col2
          | _ => Ok (Text msg_comparison, None)
          end)
  /\ find_target_col ["price"; "price_usd"]
       (Py.lower "Average PRICE_USD?") = Some "price"
  /\ find_target_col ["price_usd"; "price"]
       (Py.lower "Average PRICE_USD?") = Some "price_usd".
Proof.
  repeat split.
  - rewrite columns_to_compare_filter in H. apply filter_In in H. apply H.
  - rewrite columns_to_compare_filter in H. apply filter_In in H. apply H.
  - intros [H1 H2]. rewrite columns_to_compare_filter. apply filter_In.
    split; assumption.
  - intros names q. apply columns_to_compare_filter.
  - intros names q. apply resolve_one.
  - intros pre a rest q Hpre Ha. apply find_target_col_skip; assumption.
  - intros q df. apply comparison_branch_resolve.
Qed.

(** The earlier of two matching columns is chosen although a later column
    is named in full by the query. *)
Lemma column_resolution_witness :
  find_target_col (["id"] ++ "price" :: ["price_usd"])
    (Py.lower "Average PRICE_USD?") = Some "price".
Proof.
  destruct column_resolution as (_ & _ & _ & H & _).
  apply H.
  - intros p [<-|[]]. reflexivity.
  - reflexivity.
Defined.

(** ** Unresolved columns *)

Lemma unresolved_column_any pd q df msg :
  Spec.unresolved_message (resolve_intent q) = Some msg ->
  (forall c, In c (column_names df) -> names_column (Py.lower q) c = false) ->
  query_data_with_ai pd q df = Ok (Text msg, None).
Proof.
  unfold resolve_intent, query_data_with_ai. intros Hmsg Hnone.
  destruct (branch (Py.lower q)); simpl in Hmsg; inversion Hmsg; subst.
  - unfold central_branch.
    rewrite (find_target_col_none _ _ Hnone). reflexivity.
  - unfold extreme_branch.
    rewrite (find_target_col_none _ _ Hnone). reflexivity.
  - unfold distribution_branch.
    rewrite (find_target_col_none _ _ Hnone). reflexivity.
  - unfold comparison_branch.
    rewrite (columns_to_compare_none _ _ Hnone). reflexivity.
Qed.

(** C7.  For a query classified into an intent that needs a column (mean,
    median, maximum, minimum, distribution, comparison), when no column
    name, lowercased, is a substring of the lowercased query, the answer is
    the fixed message of that intent and there is no chart. *)
Theorem unresolved_column pd q df msg :
  Spec.unresolved_message (resolve_intent q) = Some msg ->
  (forall c, In c (column_names df) ->
             Py.contains (Py.lower c) (Py.lower q) = false) ->
  query_data_with_ai pd q df = Ok (Text msg, None).
Proof.
  intros Hmsg Hnone. apply unresolved_column_any; assumption.
Qed.

(** "what is the average of sales?" on a frame without a sales column. *)
Lemma unresolved_column_witness :
  query_data_with_ai Reference.pd "what is the average of sales?"
    (frame 2 [numeric_column "price" [10; 20]%float;
              object_column "region" ["north"; "south"]])
  = Ok (Text msg_average, None).
Proof.
  apply unresolved_column.
  - reflexivity.
  - intros c [<-|[<-|[]]]; reflexivity.
Defined.

(** ** A first match that is not numeric *)

Lemma mem_In c cols : mem c cols = true <-> In c cols.
Proof.
  unfold mem. rewrite existsb_exists. split.
  - intros (x & Hx & E). apply String.eqb_eq in E. subst. exact Hx.
  - intros H. exists c. split; [exact H | apply String.eqb_refl].
Qed.

Lemma NoDup_names_inj (cols : list column) a b :
  NoDup (map name cols) -> In a cols -> In b cols -> name a = name b ->
  a = b.
Proof.
  induction cols as [|c cols IH]; simpl; intros Hnd Ha Hb E.
  - contradiction.
  - inversion Hnd as [|x l Hnotin Hnd']; subst.
    destruct Ha as [<-|Ha], Hb as [<-|Hb].
    + reflexivity.
    + exfalso. apply Hnotin. rewrite E. apply in_map. exact Hb.
    + exfalso. apply Hnotin. rewrite <- E. apply in_map. exact Ha.
    + apply IH; assumption.
Qed.

Lemma not_numeric_name df col :
  NoDup (column_names df) -> In col (columns df) ->
  is_number (dt col) = false ->
  mem (name col) (numeric_cols df) = false.
Proof.
  intros Hnd Hin Hdt. destruct (mem (name col) (numeric_cols df)) eqn:E;
    [|reflexivity].
  apply mem_In in E. unfold numeric_cols, select_dtypes in E.
  apply in_map_iff in E. destruct E as (c' & Hname & Hc').
  apply filter_In in Hc'. destruct Hc' as [Hc' Hnum].
  assert (c' = col) by (apply (NoDup_names_inj (columns df)); assumption).
  subst. congruence.
Qed.

Lemma numeric_branch_not_numeric pd q df c msg :
  Spec.numeric_message (resolve_intent q) = Some msg ->
  find_target_col (column_names df) (Py.lower q) = Some c ->
  mem c (numeric_cols df) = false ->
  query_data_with_ai pd q df = Ok (Text msg, None).
Proof.
  unfold resolve_intent, query_data_with_ai. intros Hmsg Hfind Hmem.
  destruct (branch (Py.lower q)); simpl in Hmsg; inversion Hmsg; subst.
  - unfold central_branch, is_numeric_target. rewrite Hfind, Hmem.
    rewrite andb_false_r. reflexivity.
  - unfold extreme_branch, is_numeric_target. rewrite Hfind, Hmem.
    rewrite andb_false_r. reflexivity.
Qed.

Lemma numeric_message_unresolved i msg :
  Spec.numeric_message i = Some msg -> Spec.unresolved_message i = Some msg.
Proof. destruct i; simpl; congruence. Qed.

(** C10.  For a mean, median, maximum or minimum query, when the first
    column whose lowercased name is a substring of the query is not
    numeric, the answer is the fixed "couldn't identify which numeric
    column" message of that intent with no chart, whatever columns follow
    it: the search stops at the first match.  It is the answer the same
    query gets on a frame where no column is named at all. *)
Theorem first_match_not_numeric pd q df pre col rest msg :
  Spec.numeric_message (resolve_intent q) = Some msg ->
  NoDup (column_names df) ->
  columns df = (pre ++ col :: rest)%list ->
  (forall p, In p pre ->
             Py.contains (Py.lower (name p)) (Py.lower q) = false) ->
  Py.contains (Py.lower (name col)) (Py.lower q) = true ->
  is_number (dt col) = false ->
  query_data_with_ai pd q df = Ok (Text msg, None)
  /\ forall df',
       (forall c, In c (column_names df') ->
                  Py.contains (Py.lower c) (Py.lower q) = false) ->
       query_data_with_ai pd q df' = query_data_with_ai pd q df.
Proof.
  intros Hmsg Hnd Hcols Hpre Hcol Hdt.
  assert (Hans : query_data_with_ai pd q df = Ok (Text msg, None)).
  { apply numeric_branch_not_numeric with (c := name col).
    - exact Hmsg.
    - unfold column_names. rewrite Hcols, map_app. simpl.
      apply find_target_col_skip; [|exact Hcol].
      intros p Hp. apply in_map_iff in Hp. destruct Hp as (p' & <- & Hp').
      apply Hpre. exact Hp'.
    - apply not_numeric_name; [exact Hnd | | exact Hdt].
      rewrite Hcols. apply in_or_app. right. left. reflexivity. }
  split; [exact Hans|].
  intros df' Hnone. rewrite Hans.
  apply unresolved_column_any; [|exact Hnone].
  apply numeric_message_unresolved. exact Hmsg.
Qed.

(** Naming the categorical column "region" first hides the numeric column
    "region_sales" that the query spells out. *)
Lemma first_match_not_numeric_witness :
  query_data_with_ai Reference.pd "average region_sales"
    (frame 2 [object_column "region" ["north"; "south"];
              numeric_column "region_sales" [10; 20]%float])
  = Ok (Text msg_average, None).
Proof.
  refine (proj1 (first_match_not_numeric Reference.pd
                   "average region_sales"
                   (frame 2 [object_column "region" ["north"; "south"];
                             numeric_column "region_sales" [10; 20]%float])
                   [] (object_column "region" ["north"; "south"])
                   [numeric_column "region_sales" [10; 20]%float]
                   msg_average _ _ _ _ _ _)).
  - reflexivity.
  - apply NoDup_cons; [intros [H|[]]; discriminate H|].
    apply NoDup_cons; [intros []|apply NoDup_nil].
  - reflexivity.
  - intros p [].
  - reflexivity.
  - reflexivity.
Defined.

(** ** Trend: percent change *)





(** ** Correlation: a frame on which the branch raises *)

(** C3, at the failing input.  The frame has two numeric columns, a = 1, 2,
    3 and the constant b = 5, 5, 5, whose correlation is NaN.  No pair beats
    the initial [highest_corr = 0], the two names stay empty, and the
    lookup [corr_matrix.loc["", ""]] raises KeyError. *)
Theorem correlation_raises_without_pair :
  List.length
    (numeric_cols (frame 3 [numeric_column "a" [1; 2; 3]%float;
                            numeric_column "b" [5; 5; 5]%float])) = 2%nat
  /\ resolve_intent "what is the correlation?" = correlation
  /\ highest_correlation Reference.pd
       (corr_matrix (frame 3 [numeric_column "a" [1; 2; 3]%float;
                              numeric_column "b" [5; 5; 5]%float]))
     = Ok initial
  /\ query_data_with_ai Reference.pd "what is the correlation?"
       (frame 3 [numeric_column "a" [1; 2; 3]%float;
                 numeric_column "b" [5; 5; 5]%float])
     = Raise KeyError.
Proof. repeat split. Qed.

(** ** The column type classifier *)












(** ** Scans that keep the first extreme entry *)


Lemma beats_trans k a b c :
  beats k a b = true -> beats k b c = true -> beats k a c = true.
Proof.
  destruct k; simpl; intros H1 H2.
  - exact (FloatOrder.ltb_trans _ _ _ H1 H2).
  - exact (FloatOrder.ltb_trans _ _ _ H2 H1).
Qed.

Lemma beats_split k a b c :
  beats k a c = true -> is_nan b = false ->
  beats k a b = true \/ beats k b c = true.
Proof.
  destruct k; simpl; intros H Hb.
  - exact (FloatOrder.ltb_split _ _ _ H Hb).
  - destruct (FloatOrder.ltb_split _ _ _ H Hb); auto.
Qed.

Lemma beats_irrefl k a : beats k a a = false.
Proof. destruct k; simpl; apply FloatOrder.ltb_irrefl. Qed.


Section Scan.

Context {A : Type} (key : A -> float) (k : extreme).

(** The entry the scan ends with is not beaten by any entry, and it is
    either the initial one, or an entry of the list that beats or outlasts
    everything before it. *)
Lemma scan_first_extreme (l : list A) (b0 : A) :
  (forall y, In y (b0 :: l) ->
             beats k (key (fold_left (step key k) l b0)) (key y) = false)
  /\ ((fold_left (step key k) l b0 = b0
       /\ forall y, In y l -> beats k (key b0) (key y) = false)
      \/ exists pre post,
           l = (pre ++ fold_left (step key k) l b0 :: post)%list
           /\ forall y, In y (b0 :: pre) ->
                beats k (key y) (key (fold_left (step key k) l b0)) = true
                \/ is_nan (key y) = true).
Proof.
  induction l as [|x l IH] using rev_ind.
  - simpl. split.
    + intros y [<-|[]]. apply beats_irrefl.
    + left. split; [reflexivity | intros y []].
  - rewrite fold_left_app. simpl.
    remember (fold_left (step key k) l b0) as r eqn:Er. clear Er.
    destruct IH as [Hmax Hfirst]. unfold step.
    destruct (beats k (key r) (key x)) eqn:Hx.
    + split.
      * intros y Hy. destruct (beats k (key x) (key y)) eqn:E; [|reflexivity].
        assert (Hin : In y (b0 :: l) \/ y = x).
        { destruct Hy as [<-|Hy]; [left; left; reflexivity|].
          apply in_app_or in Hy. destruct Hy as [Hy|[<-|[]]].
          - left. right. exact Hy.
          - right. reflexivity. }
        destruct Hin as [Hin| ->].
        -- rewrite <- (Hmax y Hin). symmetry.
           exact (beats_trans _ _ _ _ Hx E).
        -- rewrite beats_irrefl in E. discriminate E.
      * right. exists l, []. split; [reflexivity|].
        intros y Hy. destruct (is_nan (key y)) eqn:Hn; [right; reflexivity|].
        left. destruct (beats_split _ _ (key y) _ Hx Hn) as [H|H];
          [|exact H].
        rewrite (Hmax y Hy) in H. discriminate H.
    + split.
      * intros y Hy. destruct Hy as [<-|Hy].
        -- apply Hmax. left. reflexivity.
        -- apply in_app_or in Hy. destruct Hy as [Hy|[<-|[]]].
           ++ apply Hmax. right. exact Hy.
           ++ exact Hx.
      * destruct Hfirst as [[Hr Hall]|(pre & post & Hl & Hpre)].
        -- left. split; [exact Hr|].
           intros y Hy. apply in_app_or in Hy. destruct Hy as [Hy|[<-|[]]].
           ++ apply Hall. exact Hy.
           ++ rewrite <- Hr. exact Hx.
        -- right. exists pre, (post ++ [x])%list. split; [|exact Hpre].
           rewrite Hl at 1. rewrite <- app_assoc. reflexivity.
Qed.


End Scan.

(** ** Positions *)

Lemma enumerate_In {A} (s : list A) : forall n p x,
  In (p, x) (enumerate_from n s)
  <-> (n <= p)%nat /\ nth_error s (p - n) = Some x.
Proof.
  induction s as [|y s IH]; intros n p x; simpl.
  - split; [intros [] | intros [_ H]].
    destruct (p - n)%nat; discriminate H.
  - rewrite IH. split.
    + intros [H|[Hle H]].
      * inversion H; subst. rewrite Nat.sub_diag. auto.
      * split; [lia|].
        replace (p - n)%nat with (S (p - S n)) by lia. exact H.
    + intros [Hle H]. destruct (Nat.eq_dec p n) as [->|Hne].
      * rewrite Nat.sub_diag in H. simpl in H. inversion H. left. reflexivity.
      * right. split; [lia|].
        replace (p - n)%nat with (S (p - S n)) in H by lia. exact H.
Qed.





(** ** Extremum: the value and the row *)

Lemma enumerate_member {A} (s : list A) n p x :
  In (p, x) (enumerate_from n s) -> In x s.
Proof.
  intros H. apply enumerate_In in H. destruct H as [_ H].
  eapply nth_error_In. exact H.
Qed.

Lemma argextreme_all_missing k (s : list float) :
  (forall x, In x s -> is_nan x = true) -> argextreme k s = None.
Proof.
  intros H. unfold argextreme.
  destruct (filter (fun py => notna (snd py)) (enumerate_from 0 s))
    as [|[p x] rest] eqn:E; [reflexivity|].
  assert (Hin : In (p, x)
                   (filter (fun py => notna (snd py)) (enumerate_from 0 s)))
    by (rewrite E; left; reflexivity).
  apply filter_In in Hin. destruct Hin as [Hin Hna].
  apply enumerate_member in Hin. unfold notna in Hna. simpl in Hna.
  rewrite (H x Hin) in Hna. discriminate Hna.
Qed.









(** ** Correlation: the scan and its tie-break *)

Lemma lookup_label c (m : list (string * list float)) :
  In c (matrix_columns m) -> exists s, lookup c m = Some s.
Proof.
  unfold matrix_columns, lookup. induction m as [|[c' s'] m IH]; simpl.
  - intros [].
  - intros [->|H].
    + rewrite String.eqb_refl. simpl. eauto.
    + destruct (c' =? c); simpl; [eauto | apply IH, H].
Qed.

Lemma corr_loc_labels pd m c1 c2 :
  In c1 (matrix_columns m) -> In c2 (matrix_columns m) ->
  corr_loc pd m c1 c2 = Ok (corr_at pd m (c1, c2)).
Proof.
  intros H1 H2. unfold corr_at, corr_loc. simpl.
  destruct (lookup_label _ _ H1) as [s1 ->].
  destruct (lookup_label _ _ H2) as [s2 ->]. reflexivity.
Qed.

Lemma scan_col2_fold pd m col1 cols : forall st,
  In col1 (matrix_columns m) ->
  (forall c, In c cols -> In c (matrix_columns m)) ->
  scan_col2 pd m col1 cols st
  = Ok (fold_left (step highest_corr maximum)
          (map (candidate pd m)
             (filter (fun p => negb (fst p =? snd p))
                     (map (fun y => (col1, y)) cols)))
          st).
Proof.
  induction cols as [|col2 cols IH]; intros st H1 Hcols; simpl.
  - reflexivity.
  - assert (Hrest : forall c, In c cols -> In c (matrix_columns m))
      by (intros c Hc; apply Hcols; right; exact Hc).
    destruct (negb (col1 =? col2)); simpl.
    + rewrite (corr_loc_labels pd m col1 col2 H1)
        by (apply Hcols; left; reflexivity).
      simpl. unfold step at 2. simpl.
      destruct (highest_corr st <? abs (corr_at pd m (col1, col2)))%float;
        apply IH; assumption.
    + apply IH; assumption.
Qed.

Lemma scan_col1_fold pd m cols1 cols : forall st,
  (forall c, In c cols1 -> In c (matrix_columns m)) ->
  (forall c, In c cols -> In c (matrix_columns m)) ->
  scan_col1 pd m cols1 cols st
  = Ok (fold_left (step highest_corr maximum)
          (map (candidate pd m)
             (filter (fun p => negb (fst p =? snd p))
                     (list_prod cols1 cols)))
          st).
Proof.
  induction cols1 as [|col1 cols1 IH]; intros st H1 Hcols; simpl.
  - reflexivity.
  - rewrite scan_col2_fold; [|apply H1; left; reflexivity | exact Hcols].
    simpl. rewrite IH; [|intros c Hc; apply H1; right; exact Hc | exact Hcols].
    rewrite filter_app, map_app, fold_left_app. reflexivity.
Qed.

Lemma highest_correlation_fold pd m :
  highest_correlation pd m
  = Ok (fold_left (step highest_corr maximum)
          (map (candidate pd m) (pairs (matrix_columns m))) initial).
Proof.
  unfold highest_correlation, pairs. apply scan_col1_fold; auto.
Qed.

Lemma pairs_labels cols p :
  In p (pairs cols) -> In (fst p) cols /\ In (snd p) cols.
Proof.
  unfold pairs. intros H. apply filter_In in H. destruct H as [H _].
  destruct p as [a b]. apply in_prod_iff in H. exact H.
Qed.

Lemma scan_keeps_initial {A} (key : A -> float) k (l : list A) (b0 : A) :
  (forall y, In y l -> beats k (key b0) (key y) = false) ->
  fold_left (step key k) l b0 = b0.
Proof.
  induction l as [|x l IH]; simpl; intros H.
  - reflexivity.
  - unfold step at 2. rewrite (H x) by (left; reflexivity).
    apply IH. intros y Hy. apply H. right. exact Hy.
Qed.

Lemma lookup_missing c (m : list (string * list float)) :
  ~ In c (matrix_columns m) -> lookup c m = None.
Proof.
  unfold matrix_columns, lookup. induction m as [|[c' s'] m IH]; simpl.
  - reflexivity.
  - intros H. destruct (String.eqb_spec c' c) as [->|Hne].
    + exfalso. apply H. left. reflexivity.
    + apply IH. intros Hin. apply H. right. exact Hin.
Qed.




(** ** Correlation: when no pair beats the initial value *)

(** Whatever the correlation function is: with 2 or more numeric columns,
    none of them named by the empty string, the branch raises KeyError as
    soon as no pair has an absolute correlation above 0 (every correlation
    is 0 or undefined). *)
Lemma correlation_branch_raises pd df :
  (2 <= List.length (numeric_cols df))%nat ->
  ~ In "" (matrix_columns (corr_matrix df)) ->
  (forall p, In p (pairs (matrix_columns (corr_matrix df))) ->
             (0 <? abs (corr_at pd (corr_matrix df) p))%float = false) ->
  correlation_branch pd df = Raise KeyError.
Proof.
  intros Hn Hempty Hnone. unfold correlation_branch.
  apply Nat.leb_le in Hn. rewrite Hn.
  rewrite highest_correlation_fold. rewrite scan_keeps_initial.
  - simpl. unfold corr_loc. rewrite (lookup_missing _ _ Hempty). reflexivity.
  - intros y Hy. apply in_map_iff in Hy. destruct Hy as (p & <- & Hp).
    simpl. apply Hnone. exact Hp.
Qed.

(** ** Correlation: the chart that is returned *)

Lemma matrix_columns_numeric df :
  matrix_columns (corr_matrix df) = numeric_cols df.
Proof.
  unfold matrix_columns, corr_matrix, numeric_cols, select_dtypes.
  rewrite map_map. reflexivity.
Qed.

Lemma two_distinct_members (l : list string) a b :
  In a l -> In b l -> a <> b -> (2 <= List.length l)%nat.
Proof.
  destruct l as [|x [|y l]]; simpl; intros Ha Hb Hne.
  - contradiction.
  - destruct Ha as [<-|[]], Hb as [<-|[]]. congruence.
  - lia.
Qed.

Lemma pairs_distinct cols p : In p (pairs cols) -> fst p <> snd p.
Proof.
  unfold pairs. intros H. apply filter_In in H. destruct H as [_ H].
  apply negb_true_iff in H. apply String.eqb_neq. exact H.
Qed.

(** The scan ends on a pair of the iteration whose absolute correlation is
    above 0, as soon as one pair has such a correlation. *)
Lemma strongest_pair_found pd m :
  (exists p, In p (pairs (matrix_columns m))
             /\ (0 <? abs (corr_at pd m p))%float = true) ->
  exists a,
    In a (pairs (matrix_columns m))
    /\ highest_correlation pd m = Ok (candidate pd m a)
    /\ (0 <? abs (corr_at pd m a))%float = true.
Proof.
  intros (p0 & Hp0 & Hpos). rewrite highest_correlation_fold.
  remember (map (candidate pd m) (pairs (matrix_columns m))) as l eqn:El.
  destruct (scan_first_extreme highest_corr maximum l initial)
    as [_ Hfirst].
  destruct Hfirst as [[_ Hall]|(pre & post & Hl & Hpre)].
  - exfalso. specialize (Hall (candidate pd m p0)). rewrite El in Hall.
    specialize (Hall (in_map _ _ _ Hp0)). simpl in Hall. congruence.
  - assert (Hin : In (fold_left (step highest_corr maximum) l initial) l)
      by (rewrite Hl at 2; apply in_or_app; right; left; reflexivity).
    rewrite El in Hin at 2. apply in_map_iff in Hin.
    destruct Hin as (a & Ha & Hain). exists a. split; [exact Hain|].
    split; [rewrite Ha; reflexivity|].
    destruct (Hpre initial (or_introl eq_refl)) as [H|H].
    + rewrite <- Ha in H. exact H.
    + discriminate H.
Qed.

(** The scan ends on a pair above 0 that no pair is stronger than. *)
Lemma strongest_pair_maximal pd m :
  (exists p, In p (pairs (matrix_columns m))
             /\ (0 <? abs (corr_at pd m p))%float = true) ->
  exists a,
    In a (pairs (matrix_columns m))
    /\ highest_correlation pd m = Ok (candidate pd m a)
    /\ (0 <? abs (corr_at pd m a))%float = true
    /\ forall p, In p (pairs (matrix_columns m)) ->
                 (abs (corr_at pd m a) <? abs (corr_at pd m p))%float = false.
Proof.
  intros Hex. destruct (strongest_pair_found pd m Hex) as (a & Ha & Hst & Hpos).
  exists a. repeat split; try assumption.
  intros p Hp. rewrite highest_correlation_fold in Hst.
  destruct (scan_first_extreme highest_corr maximum
              (map (candidate pd m) (pairs (matrix_columns m))) initial)
    as [Hmax _].
  inversion Hst as [Hfold]. rewrite Hfold in Hmax.
  apply (Hmax (candidate pd m p)). right. apply in_map, Hp.
Qed.

(** C9.  For every correlation query that succeeds because a strongest
    pair is found (some pair of distinct numeric columns has a defined,
    nonzero correlation, so the frame has at least 2 numeric columns), the
    response names a pair of distinct numeric columns that no pair has a
    stronger correlation than, with its matrix entry, and the chart
    returned is the scatter plot with trendline of that very pair; it is
    not the heatmap of the whole matrix, which the code builds first and
    then overrides.  In a frame with at least 2 numeric columns, none of
    them named by the empty string, a query that returns an answer at all
    has found such a pair. *)
Theorem correlation_chart pd q df :
  resolve_intent q = correlation ->
  ((exists p, In p (pairs (numeric_cols df))
              /\ (0 <? abs (corr_at pd (corr_matrix df) p))%float = true) ->
   exists c1 c2 coef v,
     query_data_with_ai pd q df = Ok (CorrelationAnalysis c1 c2 coef, v)
     /\ v = Some (scatter_ols c1 c2)
     /\ v <> Some (imshow_corr (matrix_columns (corr_matrix df)))
     /\ (2 <= List.length (numeric_cols df))%nat
     /\ In (c1, c2) (pairs (numeric_cols df))
     /\ coef = corr_at pd (corr_matrix df) (c1, c2)
     /\ (0 <? abs coef)%float = true
     /\ forall p, In p (pairs (numeric_cols df)) ->
                  (abs coef <? abs (corr_at pd (corr_matrix df) p))%float
                  = false)
  /\ (forall r v,
        (2 <= List.length (numeric_cols df))%nat ->
        ~ In "" (numeric_cols df) ->
        query_data_with_ai pd q df = Ok (r, v) ->
        exists p, In p (pairs (numeric_cols df))
                  /\ (0 <? abs (corr_at pd (corr_matrix df) p))%float = true).
Proof.
  unfold resolve_intent, query_data_with_ai. intros Hq. rewrite Hq.
  rewrite <- matrix_columns_numeric in *. split.
  - intros Hex.
    destruct (strongest_pair_maximal pd (corr_matrix df) Hex)
      as ([c1 c2] & Ha & Hst & Hpos & Hmax).
    pose proof (pairs_distinct _ _ Ha) as Hne.
    pose proof (pairs_labels _ _ Ha) as [Ha1 Ha2]. simpl in Hne, Ha1, Ha2.
    pose proof (two_distinct_members _ _ _ Ha1 Ha2 Hne) as Hlen.
    exists c1, c2, (corr_at pd (corr_matrix df) (c1, c2)),
      (Some (scatter_ols c1 c2)).
    repeat split; try assumption; try discriminate.
    unfold correlation_branch. rewrite <- matrix_columns_numeric.
    apply Nat.leb_le in Hlen. rewrite Hlen, Hst. simpl.
    rewrite (corr_loc_labels pd _ _ _ Ha1 Ha2). reflexivity.
  - intros r v Hlen Hempty Hok.
    destruct (existsb
                (fun p => (0 <? abs (corr_at pd (corr_matrix df) p))%float)
                (pairs (matrix_columns (corr_matrix df)))) eqn:E.
    + apply existsb_exists in E. exact E.
    + exfalso. rewrite correlation_branch_raises in Hok.
      * discriminate Hok.
      * rewrite <- matrix_columns_numeric. exact Hlen.
      * exact Hempty.
      * intros p Hp.
        destruct (0 <? abs (corr_at pd (corr_matrix df) p))%float eqn:F;
          [|reflexivity].
        assert (Htrue : existsb
                          (fun p =>
                             (0 <? abs (corr_at pd (corr_matrix df) p))%float)
                          (pairs (matrix_columns (corr_matrix df))) = true)
          by (apply existsb_exists; exists p; split; assumption).
        congruence.
Qed.

(** In [swap_frame] the first two columns are unrelated and the third
    follows the first: the chart is the scatter plot of "a" against "c",
    not of the first two columns and not the heatmap. *)
Lemma correlation_chart_witness :
  (exists c1 c2 coef v,
      query_data_with_ai Reference.pd "how do they correlate?" swap_frame
      = Ok (CorrelationAnalysis c1 c2 coef, v)
      /\ v = Some (scatter_ols c1 c2)
      /\ v <> Some (imshow_corr (matrix_columns (corr_matrix swap_frame)))
      /\ (2 <= List.length (numeric_cols swap_frame))%nat
      /\ In (c1, c2) (pairs (numeric_cols swap_frame))
      /\ coef = corr_at Reference.pd (corr_matrix swap_frame) (c1, c2)
      /\ (0 <? abs coef)%float = true
      /\ forall p, In p (pairs (numeric_cols swap_frame)) ->
                   (abs coef
                    <? abs (corr_at Reference.pd (corr_matrix swap_frame) p))%float
                   = false)
  /\ query_data_with_ai Reference.pd "how do they correlate?" swap_frame
     = Ok (CorrelationAnalysis "a" "c" 1, Some (scatter_ols "a" "c")).
Proof.
  split; [|vm_compute; reflexivity].
  apply (proj1 (correlation_chart Reference.pd "how do they correlate?"
                  swap_frame eq_refl)).
  exists ("a", "c"). split; [|vm_compute; reflexivity].
  right. left. reflexivity.
Defined.

(** * Further properties of the engine *)

Ltac break_branch :=
  repeat match goal with
    | |- context [match ?x with _ => _ end] => destruct x eqn:?
    end.

Ltac close_answer :=
  let H := fresh "H" in
  let H' := fresh "H" in
  intros H; inversion H; subst; split; intros H';
  try discriminate H'; eauto; destruct H' as [? H']; discriminate H'.

Lemma central_branch_answer pd k ql df r v :
  central_branch pd k ql df = Ok (r, v) ->
  (v = None <-> exists s, r = Text s).
Proof.
  unfold central_branch, bind. break_branch; close_answer.
Qed.

Lemma extreme_branch_answer k ql df r v :
  extreme_branch k ql df = Ok (r, v) ->
  (v = None <-> exists s, r = Text s).
Proof.
  unfold extreme_branch, bind. break_branch; close_answer.
Qed.

Lemma correlation_branch_answer pd df r v :
  correlation_branch pd df = Ok (r, v) ->
  (v = None <-> exists s, r = Text s).
Proof.
  unfold correlation_branch, bind. break_branch; close_answer.
Qed.

Lemma distribution_branch_answer ql df r v :
  distribution_branch ql df = Ok (r, v) ->
  (v = None <-> exists s, r = Text s).
Proof.
  unfold distribution_branch. break_branch; close_answer.
Qed.

Lemma comparison_branch_answer ql df r v :
  comparison_branch ql df = Ok (r, v) ->
  (v = None <-> exists s, r = Text s).
Proof.
  unfold comparison_branch, compare_two, comparison_heading.
  break_branch; close_answer.
Qed.

Lemma trend_branch_answer pd ql df r v :
  trend_branch pd ql df = Ok (r, v) ->
  (v = None <-> exists s, r = Text s).
Proof.
  unfold trend_branch, bind. break_branch; close_answer.
Qed.

(** X1.  An answer that is one of the fixed messages never carries a chart,
    whatever the intent.  For every intent other than summary and fallback
    the converse holds too: an answer without a chart is a message, so every
    analysis comes with its chart. *)
Theorem message_iff_no_chart pd q df r v :
  query_data_with_ai pd q df = Ok (r, v) ->
  ((exists s, r = Text s) -> v = None)
  /\ (resolve_intent q <> summary -> resolve_intent q <> fallback ->
      v = None -> exists s, r = Text s).
Proof.
  unfold resolve_intent, query_data_with_ai.
  destruct (branch (Py.lower q)) eqn:Hb; intros H.
  - unfold summary_branch in H. inversion H; subst.
    split; [intros [s Hs]; discriminate Hs | congruence].
  - apply central_branch_answer in H. split; [apply H | intros _ _; apply H].
  - apply extreme_branch_answer in H. split; [apply H | intros _ _; apply H].
  - apply correlation_branch_answer in H.
    split; [apply H | intros _ _; apply H].
  - inversion H; subst. split; eauto.
  - apply distribution_branch_answer in H.
    split; [apply H | intros _ _; apply H].
  - apply comparison_branch_answer in H.
    split; [apply H | intros _ _; apply H].
  - apply trend_branch_answer in H. split; [apply H | intros _ _; apply H].
  - unfold fallback_branch, bind in H.
    destruct (categorical_overview df (firstn 5 (categorical_cols df)));
      [|discriminate H].
    inversion H; subst.
    split; [intros [s Hs]; discriminate Hs | congruence].
Qed.

(** A trend question on a frame without any date column: a message, and no
    chart. *)
Lemma message_iff_no_chart_witness :
  ((exists s, Text msg_trend_time = Text s) -> @None chart = None)
  /\ (resolve_intent "how did price change?" <> summary ->
      resolve_intent "how did price change?" <> fallback ->
      @None chart = None -> exists s, Text msg_trend_time = Text s).
Proof.
  apply (message_iff_no_chart Reference.pd "how did price change?"
           (frame 2 [numeric_column "price" [10; 20]%float])).
  reflexivity.
Defined.

(** ** Correlation: when it answers *)

(** X2.  A correlation query completes whenever some pair of distinct
    numeric columns has a defined, nonzero correlation: the answer names two
    distinct numeric columns, gives the matrix entry of the two as their
    coefficient, a nonzero one, and carries their scatter plot. *)
Theorem correlation_completes pd q df :
  resolve_intent q = correlation ->
  (exists p c,
      In p (pairs (numeric_cols df))
      /\ corr_loc pd (corr_matrix df) (fst p) (snd p) = Ok c
      /\ (0 <? abs c)%float = true) ->
  exists c1 c2 coef,
    query_data_with_ai pd q df
    = Ok (CorrelationAnalysis c1 c2 coef, Some (scatter_ols c1 c2))
    /\ c1 <> c2
    /\ In c1 (numeric_cols df) /\ In c2 (numeric_cols df)
    /\ corr_loc pd (corr_matrix df) c1 c2 = Ok coef
    /\ (0 <? abs coef)%float = true.
Proof.
  unfold resolve_intent, query_data_with_ai. intros Hq (p & c & Hp & Hc & Hpos).
  rewrite Hq. rewrite <- matrix_columns_numeric in *.
  destruct (strongest_pair_found pd (corr_matrix df)) as (a & Ha & Hst & Hapos).
  { exists p. split; [exact Hp|]. unfold corr_at. rewrite Hc. exact Hpos. }
  pose proof (pairs_distinct _ _ Ha) as Hne.
  pose proof (pairs_labels _ _ Ha) as [Ha1 Ha2].
  pose proof (pairs_distinct _ _ Hp) as Hpne.
  pose proof (pairs_labels _ _ Hp) as [Hp1 Hp2].
  exists (fst a), (snd a), (corr_at pd (corr_matrix df) a).
  assert (Hloc : corr_loc pd (corr_matrix df) (fst a) (snd a)
                 = Ok (corr_at pd (corr_matrix df) a))
    by (rewrite (corr_loc_labels pd _ _ _ Ha1 Ha2); destruct a; reflexivity).
  repeat split; try assumption.
  unfold correlation_branch.
  rewrite <- matrix_columns_numeric.
  pose proof (two_distinct_members _ _ _ Hp1 Hp2 Hpne) as Hlen.
  apply Nat.leb_le in Hlen. rewrite Hlen, Hst. simpl. rewrite Hloc.
  reflexivity.
Qed.

(** Three columns that all correlate perfectly. *)
Lemma correlation_completes_witness :
  exists c1 c2 coef,
    query_data_with_ai Reference.pd "Which columns correlate?" tied_frame
    = Ok (CorrelationAnalysis c1 c2 coef, Some (scatter_ols c1 c2))
    /\ c1 <> c2
    /\ In c1 (numeric_cols tied_frame) /\ In c2 (numeric_cols tied_frame)
    /\ corr_loc Reference.pd (corr_matrix tied_frame) c1 c2 = Ok coef
    /\ (0 <? abs coef)%float = true.
Proof.
  apply correlation_completes.
  - reflexivity.
  - exists ("b", "c"), (-1)%float. repeat split.
    right. right. right. left. reflexivity.
Defined.

(** X3.  A correlation query is answered with the "not enough numeric
    columns" message exactly when the frame has fewer than 2 numeric
    columns. *)
Theorem correlation_needs_two_columns pd q df :
  resolve_intent q = correlation ->
  (query_data_with_ai pd q df = Ok (Text msg_correlation, None)
   <-> (List.length (numeric_cols df) < 2)%nat).
Proof.
  unfold resolve_intent, query_data_with_ai. intros Hq. rewrite Hq.
  unfold correlation_branch.
  destruct (2 <=? List.length (numeric_cols df))%nat eqn:E.
  - apply Nat.leb_le in E. split; [|lia].
    unfold bind. break_branch; discriminate.
  - apply Nat.leb_gt in E. split; [intros _; exact E | reflexivity].
Qed.

(** One numeric column is not enough. *)
Lemma correlation_needs_two_columns_witness :
  query_data_with_ai Reference.pd "correlation of price"
    (frame 2 [numeric_column "price" [10; 20]%float;
              object_column "region" ["north"; "south"]])
  = Ok (Text msg_correlation, None).
Proof.
  apply (proj2 (correlation_needs_two_columns Reference.pd
                  "correlation of price"
                  (frame 2 [numeric_column "price" [10; 20]%float;
                            object_column "region" ["north"; "south"]])
                  eq_refl)).
  simpl. lia.
Defined.

(** ** Distribution and comparison: every named column is analysed *)

Lemma find_target_col_In names ql c :
  find_target_col names ql = Some c -> In c names.
Proof.
  induction names as [|x names IH]; simpl.
  - discriminate.
  - destruct (names_column ql x).
    + intros H. inversion H. left. reflexivity.
    + intros H. right. apply IH, H.
Qed.

Lemma numeric_or_categorical df c :
  In c (column_names df) ->
  mem c (numeric_cols df) = true \/ mem c (categorical_cols df) = true.
Proof.
  unfold column_names, numeric_cols, categorical_cols, select_dtypes.
  intros H. apply in_map_iff in H. destruct H as (col & <- & Hcol).
  destruct (is_number (dt col)) eqn:E; [left | right];
    apply mem_In, in_map, filter_In; split; try assumption.
  rewrite E. reflexivity.
Qed.

Lemma truthy_nonempty c : c <> "" -> Py.truthy c = true.
Proof. destruct c; [congruence | reflexivity]. Qed.

(** X4.  A distribution query that names a column (of a nonempty name)
    always gets a distribution analysis of the first column it names: with
    the histogram and its box-plot margin when the column is numeric, with
    the bar chart of value counts otherwise.  The response is never left
    empty. *)
Theorem distribution_of_named_column pd q df c :
  resolve_intent q = distribution ->
  find_target_col (column_names df) (Py.lower q) = Some c ->
  c <> "" ->
  query_data_with_ai pd q df
  = Ok (DistributionAnalysis c (mem c (numeric_cols df)),
        Some (if mem c (numeric_cols df)
              then histogram c None true
              else bar c)).
Proof.
  unfold resolve_intent, query_data_with_ai. intros Hq Hfind Hc. rewrite Hq.
  unfold distribution_branch. rewrite Hfind. simpl truthy.
  rewrite (truthy_nonempty c Hc).
  destruct (mem c (numeric_cols df)) eqn:Hnum; [reflexivity|].
  destruct (numeric_or_categorical df c (find_target_col_In _ _ _ Hfind))
    as [H|H]; [congruence|].
  rewrite H. reflexivity.
Qed.

(** A text column gets the bar chart. *)
Lemma distribution_of_named_column_witness :
  query_data_with_ai Reference.pd "Show the distribution of Region"
    (frame 2 [numeric_column "price" [10; 20]%float;
              object_column "region" ["north"; "south"]])
  = Ok (DistributionAnalysis "region"
          (mem "region"
             (numeric_cols
                (frame 2 [numeric_column "price" [10; 20]%float;
                          object_column "region" ["north"; "south"]]))),
        Some (if mem "region"
                   (numeric_cols
                      (frame 2 [numeric_column "price" [10; 20]%float;
                                object_column "region" ["north"; "south"]]))
              then histogram "region" None true
              else bar "region")).
Proof.
  apply distribution_of_named_column.
  - reflexivity.
  - reflexivity.
  - discriminate.
Defined.

Lemma mem_by_dtype df col (p : dtype -> bool) :
  NoDup (column_names df) -> In col (columns df) ->
  mem (name col) (select_dtypes p df) = p (dt col).
Proof.
  intros Hnd Hin. destruct (p (dt col)) eqn:E.
  - apply mem_In. unfold select_dtypes. apply in_map, filter_In.
    split; assumption.
  - destruct (mem (name col) (select_dtypes p df)) eqn:M; [|reflexivity].
    apply mem_In in M. unfold select_dtypes in M.
    apply in_map_iff in M. destruct M as (c' & Hname & Hc').
    apply filter_In in Hc'. destruct Hc' as [Hc' Hp].
    assert (c' = col) by (apply (NoDup_names_inj (columns df)); assumption).
    subst. congruence.
Qed.

(** X5.  In a frame with unique column names, a comparison query that names
    two columns or more compares the first two in dataset order, by their
    kinds: two numeric columns give the numeric comparison with their
    scatter plot; a numeric and a non-numeric column give the grouped
    comparison with the box plot of the numeric one by the other, in
    whichever order they come; two non-numeric columns give the
    cross-tabulation with its heatmap.  No case is left with the heading
    alone. *)
Theorem comparison_by_kind pd q df col1 col2 rest :
  resolve_intent q = comparison ->
  NoDup (column_names df) ->
  In col1 (columns df) -> In col2 (columns df) ->
  columns_to_compare (column_names df) (Py.lower q)
  = name col1 :: name col2 :: rest ->
  query_data_with_ai pd q df
  = Ok (match is_number (dt col1), is_number (dt col2) with
        | true, true =>
            (ComparisonNumeric (name col1) (name col2),
             Some (scatter_ols (name col1) (name col2)))
        | true, false =>
            (ComparisonGrouped (name col1) (name col2),
             Some (box (name col2) (name col1)))
        | false, true =>
            (ComparisonGrouped (name col2) (name col1),
             Some (box (name col1) (name col2)))
        | false, false =>
            (ComparisonCrosstab (name col1) (name col2),
             Some (imshow_crosstab (name col1) (name col2)))
        end).
Proof.
  unfold resolve_intent, query_data_with_ai.
  intros Hq Hnd H1 H2 Hcols. rewrite Hq.
  unfold comparison_branch. rewrite Hcols. unfold compare_two.
  unfold numeric_cols, categorical_cols.
  rewrite !(mem_by_dtype df col1) by assumption.
  rewrite !(mem_by_dtype df col2) by assumption.
  destruct (is_number (dt col1)), (is_number (dt col2)); reflexivity.
Qed.

(** "sales" is numeric and "region" is not: the box plot of sales by
    region, although region comes first in the frame. *)
Lemma comparison_by_kind_witness :
  query_data_with_ai Reference.pd "Compare sales vs region"
    (frame 2 [object_column "region" ["north"; "south"];
              numeric_column "sales" [10; 20]%float])
  = Ok (ComparisonGrouped "sales" "region", Some (box "region" "sales")).
Proof.
  apply (comparison_by_kind Reference.pd "Compare sales vs region"
           (frame 2 [object_column "region" ["north"; "south"];
                     numeric_column "sales" [10; 20]%float])
           (object_column "region" ["north"; "south"])
           (numeric_column "sales" [10; 20]%float) []).
  - reflexivity.
  - apply NoDup_cons; [intros [H|[]]; discriminate H|].
    apply NoDup_cons; [intros []|apply NoDup_nil].
  - left. reflexivity.
  - right. left. reflexivity.
  - reflexivity.
Defined.

(** ** Trend: what it needs, what it defaults to, where it raises *)

Lemma find_no_match {A} (f : A -> bool) (l : list A) :
  (forall x, In x l -> f x = false) -> find f l = None.
Proof.
  induction l as [|x l IH]; simpl; intros H.
  - reflexivity.
  - rewrite (H x) by (left; reflexivity).
    apply IH. intros y Hy. apply H. right. exact Hy.
Qed.

(** X6.  A trend query is answered with the "no suitable time or date
    column" message when the frame has no datetime column and no column
    whose lowercased name contains "date", "time", "year", "month" or
    "day"; and with the "which value" message when a time column is found
    but the frame has no numeric column.  Neither answer has a chart. *)
Theorem trend_needs_columns pd q df :
  resolve_intent q = trend ->
  (datetime_cols df = [] ->
   (forall c, In c (column_names df) ->
              Py.any_in date_words (Py.lower c) = false) ->
   query_data_with_ai pd q df = Ok (Text msg_trend_time, None))
  /\ (forall t, trend_time_col df = Some t -> t <> "" ->
                numeric_cols df = [] ->
                query_data_with_ai pd q df = Ok (Text msg_trend_value, None)).
Proof.
  unfold resolve_intent, query_data_with_ai. intros Hq. rewrite Hq.
  unfold trend_branch. split.
  - intros Hdt Hnames. unfold trend_time_col. rewrite Hdt.
    cbn [hd_error truthy negb].
    rewrite (find_no_match _ _ Hnames). reflexivity.
  - intros t Ht Hne Hnum. rewrite Ht. simpl truthy.
    rewrite (truthy_nonempty t Hne).
    unfold trend_target_col. rewrite Hnum. reflexivity.
Qed.

(** A frame of prices by region has nothing to order a trend by; a frame of
    dates alone has nothing to track. *)
Lemma trend_needs_columns_witness :
  query_data_with_ai Reference.pd "price trend"
    (frame 2 [numeric_column "price" [10; 20]%float;
              object_column "region" ["north"; "south"]])
  = Ok (Text msg_trend_time, None)
  /\ query_data_with_ai Reference.pd "trend"
       (frame 2 [object_column "date" ["2024-01-01"; "2024-01-02"]])
     = Ok (Text msg_trend_value, None).
Proof.
  split.
  - apply (proj1 (trend_needs_columns Reference.pd "price trend"
                    (frame 2 [numeric_column "price" [10; 20]%float;
                              object_column "region" ["north"; "south"]])
                    eq_refl)).
    + reflexivity.
    + intros c [<-|[<-|[]]]; reflexivity.
  - apply (proj2 (trend_needs_columns Reference.pd "trend"
                    (frame 2 [object_column "date"
                                ["2024-01-01"; "2024-01-02"]])
                    eq_refl) "date").
    + reflexivity.
    + discriminate.
    + reflexivity.
Defined.


(** X8.  A trend query on a frame without rows raises IndexError: the time
    column and the value column are resolved, and reading the first value
    of the empty sorted column fails. *)
Theorem trend_on_empty_column_raises pd q df t c col :
  resolve_intent q = trend ->
  trend_time_col df = Some t -> t <> "" ->
  trend_target_col df (Py.lower q) = Some c -> c <> "" ->
  getitem (sort_values pd df t) c = Ok col ->
  values col = [] ->
  query_data_with_ai pd q df = Raise IndexError.
Proof.
  unfold resolve_intent, query_data_with_ai.
  intros Hq Ht Htne Hc Hcne Hcol Hvals. rewrite Hq.
  unfold trend_branch. rewrite Ht. simpl truthy.
  rewrite (truthy_nonempty t Htne), Hc. simpl truthy.
  rewrite (truthy_nonempty c Hcne), Hcol. simpl bind.
  unfold floats. rewrite Hvals. reflexivity.
Qed.

(** A frame with a year column and a value column, and no rows. *)
Lemma trend_on_empty_column_raises_witness :
  query_data_with_ai Reference.pd "trend of v"
    (frame 0 [numeric_column "year" []; numeric_column "v" []])
  = Raise IndexError.
Proof.
  apply (trend_on_empty_column_raises Reference.pd "trend of v"
           (frame 0 [numeric_column "year" []; numeric_column "v" []])
           "year" "v" (numeric_column "v" [])).
  - reflexivity.
  - reflexivity.
  - discriminate.
  - reflexivity.
  - discriminate.
  - reflexivity.
  - reflexivity.
Defined.


(** ** Extremum: a column with nothing in it *)

(** X9.  A maximum or minimum query that resolves to a numeric column with
    no entry present (every entry missing, or a frame without rows) does
    not answer: looking for the row of the extreme value raises. *)
Theorem extremum_of_nothing_raises pd k q df c col :
  resolve_intent q = extremum k ->
  find_target_col (column_names df) (Py.lower q) = Some c ->
  c <> "" -> mem c (numeric_cols df) = true ->
  getitem df c = Ok col ->
  (forall x, In x (floats col) -> is_nan x = true) ->
  exists e, query_data_with_ai pd q df = Raise e.
Proof.
  unfold resolve_intent, query_data_with_ai.
  intros Hq Hfind Hc Hmem Hcol Hall. rewrite Hq.
  unfold extreme_branch, is_numeric_target.
  rewrite Hfind, (truthy_nonempty c Hc), Hmem, Hcol. simpl.
  unfold idxextreme. rewrite (argextreme_all_missing k _ Hall).
  destruct (floats col); [exists ValueError | exists KeyError]; reflexivity.
Qed.

(** The maximum of a column of a frame without rows. *)
Lemma extremum_of_nothing_raises_witness :
  exists e,
    query_data_with_ai Reference.pd "maximum price"
      (frame 0 [numeric_column "price" []])
    = Raise e.
Proof.
  apply (extremum_of_nothing_raises Reference.pd maximum "maximum price"
           (frame 0 [numeric_column "price" []])
           "price" (numeric_column "price" [])).
  - reflexivity.
  - reflexivity.
  - discriminate.
  - reflexivity.
  - reflexivity.
  - intros x [].
Defined.

(** ** Percent change of a missing value *)

Lemma is_nan_of_spec x : Prim2SF x = S754_nan -> is_nan x = true.
Proof.
  intros H. unfold is_nan. rewrite eqb_spec, H. reflexivity.
Qed.

Lemma sub_nan_r x y : is_nan y = true -> is_nan (x - y)%float = true.
Proof.
  intros H. apply is_nan_of_spec. rewrite sub_spec.
  rewrite (FloatOrder.is_nan_true y H). destruct (Prim2SF x); reflexivity.
Qed.

Lemma sub_nan_l x y : is_nan x = true -> is_nan (x - y)%float = true.
Proof.
  intros H. apply is_nan_of_spec. rewrite sub_spec.
  rewrite (FloatOrder.is_nan_true x H). reflexivity.
Qed.

Lemma div_nan_l x y : is_nan x = true -> is_nan (x / y)%float = true.
Proof.
  intros H. apply is_nan_of_spec. rewrite div_spec.
  rewrite (FloatOrder.is_nan_true x H). reflexivity.
Qed.

Lemma mul_nan_l x y : is_nan x = true -> is_nan (x * y)%float = true.
Proof.
  intros H. apply is_nan_of_spec. rewrite mul_spec.
  rewrite (FloatOrder.is_nan_true x H). reflexivity.
Qed.

(** X10.  When the first or the last value of the sorted column is missing
    (NaN), the percent change a trend query reports is NaN: a missing first
    value is not the "first value is 0" case and does not give infinity;
    a missing last value gives NaN unless the first value is 0. *)
Theorem pct_change_of_missing first_val last_val :
  (is_nan first_val = true ->
   is_nan (pct_change first_val last_val) = true)
  /\ (is_nan last_val = true -> (first_val =? 0)%float = false ->
      is_nan (pct_change first_val last_val) = true).
Proof.
  unfold pct_change. split.
  - intros H. rewrite (FloatOrder.eqb_nan_l _ 0%float H). simpl.
    apply mul_nan_l, div_nan_l, sub_nan_r, H.
  - intros H Hz. rewrite Hz. simpl.
    apply mul_nan_l, div_nan_l, sub_nan_l, H.
Qed.

(** A missing first value, and a missing last value after a first value
    of 4. *)
Lemma pct_change_of_missing_witness :
  is_nan (pct_change nan 5) = true /\ is_nan (pct_change 4 nan) = true.
Proof.
  split.
  - apply (proj1 (pct_change_of_missing nan 5)). reflexivity.
  - apply (proj2 (pct_change_of_missing 4 nan)); reflexivity.
Defined.

(** * [filter_data] *)

Lemma select_map {A B} (f : A -> B) mask (l : list A) :
  select mask (map f l) = map f (select mask l).
Proof.
  revert l. induction mask as [|b mask IH]; intros [|x l]; simpl;
    try reflexivity.
  destruct b; simpl; rewrite IH; reflexivity.
Qed.

Lemma select_filter {A} (f : A -> bool) (l : list A) :
  select (map f l) l = filter f l.
Proof.
  induction l as [|x l IH]; simpl; [reflexivity|].
  destruct (f x); rewrite IH; reflexivity.
Qed.

Lemma select_In {A} mask (l : list A) x : In x (select mask l) -> In x l.
Proof.
  revert l. induction mask as [|b mask IH]; intros [|y l]; simpl;
    try contradiction.
  destruct b; simpl; intros H.
  - destruct H as [H|H]; [left; exact H | right; apply IH, H].
  - right. apply IH, H.
Qed.

Lemma select_NoDup {A} mask (l : list A) : NoDup l -> NoDup (select mask l).
Proof.
  revert l. induction mask as [|b mask IH]; intros [|y l] Hnd; simpl;
    try apply NoDup_nil.
  inversion Hnd as [|z l' Hnotin Hnd']; subst. destruct b.
  - apply NoDup_cons; [|apply IH, Hnd'].
    intros H. apply Hnotin. eapply select_In. exact H.
  - apply IH, Hnd'.
Qed.

Lemma select_length {A B} mask (l : list A) (l' : list B) :
  List.length l = List.length l' ->
  List.length (select mask l) = List.length (select mask l').
Proof.
  revert l l'. induction mask as [|b mask IH]; intros [|x l] [|y l'] H;
    simpl in *; try reflexivity; try discriminate H.
  injection H as H. destruct b; simpl; rewrite (IH l l' H); reflexivity.
Qed.

Lemma take_rows_names mask df :
  column_names (take_rows mask df) = column_names df.
Proof.
  unfold column_names, take_rows. simpl. rewrite map_map. reflexivity.
Qed.

Lemma take_rows_select_dtypes p mask df :
  select_dtypes p (take_rows mask df) = select_dtypes p df.
Proof.
  unfold select_dtypes, take_rows. simpl.
  induction (columns df) as [|c cols IH]; simpl; [reflexivity|].
  destruct (p (dt c)); simpl; rewrite IH; reflexivity.
Qed.

Lemma take_rows_getitem mask df c col :
  getitem df c = Ok col ->
  getitem (take_rows mask df) c
  = Ok {| name := name col; dt := dt col;
          values := select mask (values col) |}.
Proof.
  unfold getitem, take_rows. simpl.
  induction (columns df) as [|x cols IH]; simpl; [discriminate|].
  destruct (name x =? c) eqn:E.
  - intros H. inversion H. reflexivity.
  - exact IH.
Qed.

(** X11.  [filter_data] on a column the frame has: in the result that
    column holds exactly its entries that are among the given values, all
    of them and in their order; every other column keeps the entries of
    the same rows.  On a column the frame lacks it raises KeyError. *)
Theorem filter_data_rows df column vals :
  (forall key,
      getitem df column = Ok key ->
      exists df',
        filter_data df column vals = Ok df'
        /\ getitem df' column
           = Ok {| name := name key; dt := dt key;
                   values := filter (isin vals) (values key) |}
        /\ index df' = select (map (isin vals) (values key)) (index df)
        /\ forall c col,
             getitem df c = Ok col ->
             getitem df' c
             = Ok {| name := name col; dt := dt col;
                     values :=
                       select (map (isin vals) (values key)) (values col) |})
  /\ ((forall c, In c (column_names df) -> c <> column) ->
      filter_data df column vals = Raise KeyError).
Proof.
  split.
  - intros key Hkey. unfold filter_data. rewrite Hkey. simpl.
    eexists. split; [reflexivity|]. split; [|split; [reflexivity|]].
    + rewrite (take_rows_getitem _ _ _ _ Hkey), select_filter. reflexivity.
    + intros c col Hcol. apply take_rows_getitem, Hcol.
  - intros Hnone. unfold filter_data, getitem.
    rewrite find_no_match; [reflexivity|].
    intros c Hc. apply String.eqb_neq, Hnone.
    unfold column_names. apply in_map, Hc.
Qed.

(** Keeping the rows of the north and of the west. *)
Lemma filter_data_rows_witness :
  exists df',
    filter_data
      (frame 4 [object_column "region" ["north"; "south"; "west"; "north"];
                numeric_column "sales" [1; 2; 3; 4]%float])
      "region" [Str "north"; Str "west"] = Ok df'
    /\ index df' = [0; 2; 3]%Z
    /\ getitem df' "sales" = Ok (numeric_column "sales" [1; 3; 4]%float).
Proof.
  destruct (proj1 (filter_data_rows
                     (frame 4 [object_column "region"
                                 ["north"; "south"; "west"; "north"];
                               numeric_column "sales" [1; 2; 3; 4]%float])
                     "region" [Str "north"; Str "west"])
                  (object_column "region" ["north"; "south"; "west"; "north"])
                  eq_refl)
    as (df' & Hf & _ & Hidx & Hcols).
  exists df'. split; [exact Hf|]. split; [exact Hidx|].
  apply (Hcols "sales" (numeric_column "sales" [1; 2; 3; 4]%float) eq_refl).
Defined.

(** X12.  [filter_data] keeps the frame in shape: the column names, their
    order and their dtypes are unchanged, every column still has one entry
    per row label, every label of the result is a label of the input, and
    labels that were unique stay unique. *)
Theorem filter_data_keeps_shape df column vals df' :
  well_formed df ->
  filter_data df column vals = Ok df' ->
  well_formed df'
  /\ column_names df' = column_names df
  /\ map dt (columns df') = map dt (columns df)
  /\ (forall l, In l (index df') -> In l (index df))
  /\ (NoDup (index df) -> NoDup (index df')).
Proof.
  unfold filter_data. intros Hwf.
  destruct (getitem df column) as [key|e]; simpl; [|discriminate].
  intros H. inversion H; subst. clear H.
  split; [|split; [|split; [|split]]].
  - intros c Hc. unfold take_rows in *. simpl in *.
    apply in_map_iff in Hc. destruct Hc as (c0 & <- & Hc0). simpl.
    apply select_length. apply Hwf, Hc0.
  - apply take_rows_names.
  - unfold take_rows. simpl. rewrite map_map. reflexivity.
  - intros l Hl. eapply select_In. exact Hl.
  - intros Hnd. apply select_NoDup, Hnd.
Qed.

(** A frame of four rows filtered to three. *)
Lemma filter_data_keeps_shape_witness :
  well_formed
    (take_rows [true; false; true; true]
       (frame 4 [object_column "region" ["north"; "south"; "west"; "north"];
                 numeric_column "sales" [1; 2; 3; 4]%float]))
  /\ column_names
       (take_rows [true; false; true; true]
          (frame 4 [object_column "region"
                      ["north"; "south"; "west"; "north"];
                    numeric_column "sales" [1; 2; 3; 4]%float]))
     = ["region"; "sales"]
  /\ index
       (take_rows [true; false; true; true]
          (frame 4 [object_column "region"
                      ["north"; "south"; "west"; "north"];
                    numeric_column "sales" [1; 2; 3; 4]%float]))
     = [0; 2; 3]%Z.
Proof.
  destruct (filter_data_keeps_shape
              (frame 4 [object_column "region"
                          ["north"; "south"; "west"; "north"];
                        numeric_column "sales" [1; 2; 3; 4]%float])
              "region" [Str "north"; Str "west"]
              (take_rows [true; false; true; true]
                 (frame 4 [object_column "region"
                             ["north"; "south"; "west"; "north"];
                           numeric_column "sales" [1; 2; 3; 4]%float])))
    as (Hwf & Hnames & _).
  - intros c [<-|[<-|[]]]; reflexivity.
  - reflexivity.
  - split; [exact Hwf|]. split; [exact Hnames | reflexivity].
Defined.

Lemma select_nil {A} mask : select mask (@nil A) = [].
Proof. destruct mask; reflexivity. Qed.

Lemma select_again {A B} (f : A -> bool) (k : list A) : forall (l : list B),
  select (map f (filter f k)) (select (map f k) l) = select (map f k) l.
Proof.
  induction k as [|a k IH]; intros l.
  - destruct l; reflexivity.
  - destruct l as [|x l]; simpl.
    + apply select_nil.
    + destruct (f a) eqn:E; simpl.
      * rewrite E. rewrite IH. reflexivity.
      * apply IH.
Qed.

(** X13.  [filter_data] is idempotent: filtering the result again by the
    same column and values gives the result back, unchanged. *)
Theorem filter_data_idempotent df column vals df' :
  filter_data df column vals = Ok df' ->
  filter_data df' column vals = Ok df'.
Proof.
  unfold filter_data.
  destruct (getitem df column) as [key|e] eqn:Hkey; simpl; [|discriminate].
  intros H. inversion H; subst. clear H.
  rewrite (take_rows_getitem _ _ _ _ Hkey). simpl.
  rewrite select_filter. f_equal. unfold take_rows. simpl.
  rewrite select_again. f_equal.
  rewrite map_map. apply map_ext. intros c. simpl.
  rewrite select_again. reflexivity.
Qed.

(** Filtering twice by the north and the west. *)
Lemma filter_data_idempotent_witness :
  filter_data
    (take_rows [true; false; true; true]
       (frame 4 [object_column "region" ["north"; "south"; "west"; "north"];
                 numeric_column "sales" [1; 2; 3; 4]%float]))
    "region" [Str "north"; Str "west"]
  = Ok (take_rows [true; false; true; true]
          (frame 4 [object_column "region"
                      ["north"; "south"; "west"; "north"];
                    numeric_column "sales" [1; 2; 3; 4]%float])).
Proof.
  apply (filter_data_idempotent
           (frame 4 [object_column "region"
                       ["north"; "south"; "west"; "north"];
                     numeric_column "sales" [1; 2; 3; 4]%float])).
  reflexivity.
Defined.

(** X14.  Statistics after a filter are those of the kept rows.  When a
    frame is filtered with [filter_data] and a mean or median query on the
    result resolves to a numeric column, the value reported is the mean
    (median) of the entries of that column in the rows the filter kept,
    not of the whole column; the column resolved is the one the query
    resolves to on the unfiltered frame. *)
Theorem statistics_after_filter pd k q df column vals key df' c col :
  filter_data df column vals = Ok df' ->
  getitem df column = Ok key ->
  resolve_intent q = central_tendency k ->
  find_target_col (column_names df) (Py.lower q) = Some c ->
  c <> "" -> mem c (numeric_cols df) = true ->
  getitem df c = Ok col ->
  query_data_with_ai pd q df'
  = Ok (CentralAnalysis k c
          (central pd k (select (map (isin vals) (values key)) (floats col))),
        Some (histogram c
                (Some (central pd k
                         (select (map (isin vals) (values key))
                                 (floats col))))
                false)).
Proof.
  unfold filter_data. intros Hf Hkey Hq Hfind Hc Hmem Hcol.
  rewrite Hkey in Hf. simpl in Hf. inversion Hf; subst. clear Hf.
  unfold resolve_intent in Hq. unfold query_data_with_ai. rewrite Hq.
  unfold central_branch, is_numeric_target.
  rewrite take_rows_names, Hfind, (truthy_nonempty c Hc).
  unfold numeric_cols in *. rewrite take_rows_select_dtypes, Hmem.
  rewrite (take_rows_getitem _ _ _ _ Hcol). simpl.
  unfold floats. simpl. rewrite select_map. reflexivity.
Qed.

(** The mean of sales over the rows of the north alone. *)
Lemma statistics_after_filter_witness :
  query_data_with_ai Reference.pd "average sales"
    (take_rows [true; false; false; true]
       (frame 4 [object_column "region" ["north"; "south"; "west"; "north"];
                 numeric_column "sales" [1; 2; 3; 4]%float]))
  = Ok (CentralAnalysis mean "sales"
          (central Reference.pd mean
             (select
                (map (isin [Str "north"])
                   (values (object_column "region"
                              ["north"; "south"; "west"; "north"])))
                (floats (numeric_column "sales" [1; 2; 3; 4]%float)))),
        Some (histogram "sales"
                (Some (central Reference.pd mean
                         (select
                            (map (isin [Str "north"])
                               (values (object_column "region"
                                          ["north"; "south"; "west";
                                           "north"])))
                            (floats
                               (numeric_column "sales"
                                  [1; 2; 3; 4]%float)))))
                false)).
Proof.
  apply (statistics_after_filter Reference.pd mean "average sales"
           (frame 4 [object_column "region"
                       ["north"; "south"; "west"; "north"];
                     numeric_column "sales" [1; 2; 3; 4]%float])
           "region" [Str "north"]
           (object_column "region" ["north"; "south"; "west"; "north"])).
  - reflexivity.
  - reflexivity.
  - reflexivity.
  - reflexivity.
  - discriminate.
  - reflexivity.
  - reflexivity.
Defined.

(** * [process_data] *)

Lemma convert_dates_name td col : name (convert_dates td col) = name col.
Proof.
  unfold convert_dates.
  destruct (is_object_dtype (dt col) && existsb date_like (values col));
    [|reflexivity].
  destruct (td (values col)); reflexivity.
Qed.

Lemma fill_missing_name pd numeric col :
  name (fill_missing pd numeric col) = name col.
Proof.
  unfold fill_missing.
  destruct (mem (name col) numeric), (existsb is_missing (values col));
    try reflexivity.
  destruct (Series_mode (values col)); reflexivity.
Qed.

Lemma fill_missing_length pd numeric col :
  List.length (values (fill_missing pd numeric col))
  = List.length (values col).
Proof.
  unfold fill_missing, fillna.
  destruct (mem (name col) numeric), (existsb is_missing (values col));
    try reflexivity; simpl; try apply length_map.
  destruct (Series_mode (values col)); simpl; apply length_map.
Qed.

Lemma convert_dates_length td col :
  (forall l l', td l = Ok l' -> List.length l' = List.length l) ->
  List.length (values (convert_dates td col)) = List.length (values col).
Proof.
  intros Htd. unfold convert_dates.
  destruct (is_object_dtype (dt col) && existsb date_like (values col));
    [|reflexivity].
  destruct (td (values col)) as [v|e] eqn:E; [|reflexivity].
  simpl. apply Htd, E.
Qed.

(** X15.  [process_data] keeps the shape of the frame: the row labels, the
    column names and their order are unchanged, and, [to_datetime] giving
    one result per entry, every column still has one entry per row. *)
Theorem process_data_keeps_shape pd td df :
  index (process_data pd td df) = index df
  /\ column_names (process_data pd td df) = column_names df
  /\ ((forall l l', td l = Ok l' -> List.length l' = List.length l) ->
      well_formed df -> well_formed (process_data pd td df)).
Proof.
  split; [reflexivity|]. split.
  - unfold column_names, process_data. simpl. rewrite map_map.
    apply map_ext. intros col.
    rewrite fill_missing_name, convert_dates_name. reflexivity.
  - intros Htd Hwf col' Hin. unfold process_data in *. simpl in *.
    apply in_map_iff in Hin. destruct Hin as (col & <- & Hcol).
    rewrite fill_missing_length, (convert_dates_length td col Htd).
    apply Hwf, Hcol.
Qed.

Lemma fillna_present v s c :
  is_missing v = false -> In c (fillna v s) -> is_missing c = false.
Proof.
  unfold fillna. intros Hv Hc. apply in_map_iff in Hc.
  destruct Hc as (c0 & <- & _). destruct (is_missing c0) eqn:E; assumption.
Qed.

Lemma none_missing s c :
  existsb is_missing s = false -> In c s -> is_missing c = false.
Proof.
  intros H Hc. destruct (is_missing c) eqn:E; [|reflexivity].
  assert (existsb is_missing s = true)
    by (apply existsb_exists; exists c; split; assumption).
  congruence.
Qed.

Lemma fold_more_frequent_In s rest x :
  In (fold_left (more_frequent s) rest x) (x :: rest).
Proof.
  revert x. induction rest as [|y rest IH]; intros x; simpl.
  - left. reflexivity.
  - destruct (IH (more_frequent s x y)) as [H|H].
    + unfold more_frequent in H at 1.
      destruct ((count_cell x s <? count_cell y s)%nat
                || ((count_cell x s =? count_cell y s)%nat && cell_ltb y x)).
      * right. left. exact H.
      * left. exact H.
    + right. right. exact H.
Qed.

(** The mode is one of the entries present. *)
Lemma Series_mode_present s v :
  Series_mode s = Some v -> In v s /\ is_missing v = false.
Proof.
  unfold Series_mode.
  destruct (filter (fun c => negb (is_missing c)) s) as [|x rest] eqn:E;
    [discriminate|].
  intros H. inversion H; subst. clear H.
  pose proof (fold_more_frequent_In s rest x) as Hin.
  rewrite <- E in Hin. apply filter_In in Hin. destruct Hin as [Hin Hm].
  split; [exact Hin|]. apply negb_true_iff in Hm. exact Hm.
Qed.

Lemma more_frequent_count s best c :
  (count_cell best s <= count_cell (more_frequent s best c) s)%nat
  /\ (count_cell c s <= count_cell (more_frequent s best c) s)%nat.
Proof.
  unfold more_frequent.
  destruct (count_cell best s <? count_cell c s)%nat eqn:Elt; simpl.
  - apply Nat.ltb_lt in Elt. lia.
  - apply Nat.ltb_ge in Elt.
    destruct (count_cell best s =? count_cell c s)%nat eqn:Eeq; simpl.
    + apply Nat.eqb_eq in Eeq. destruct (cell_ltb c best); lia.
    + lia.
Qed.

Lemma fold_more_frequent_count s rest : forall x y,
  In y (x :: rest) ->
  (count_cell y s <= count_cell (fold_left (more_frequent s) rest x) s)%nat.
Proof.
  induction rest as [|z rest IH]; intros x y Hy.
  - destruct Hy as [<-|[]]. apply Nat.le_refl.
  - simpl fold_left.
    destruct (more_frequent_count s x z) as [Hx Hz].
    pose proof (IH (more_frequent s x z) (more_frequent s x z)
                  (or_introl eq_refl)) as Hb.
    destruct Hy as [<-|[<-|Hy]].
    + lia.
    + lia.
    + apply IH. right. exact Hy.
Qed.

(** No entry present occurs more often than the mode. *)
Lemma Series_mode_most_frequent s v :
  Series_mode s = Some v ->
  forall c, In c s -> is_missing c = false ->
            (count_cell c s <= count_cell v s)%nat.
Proof.
  unfold Series_mode.
  destruct (filter (fun c => negb (is_missing c)) s) as [|x rest] eqn:E;
    [discriminate|].
  intros H c Hc Hm. inversion H; subst. clear H.
  apply fold_more_frequent_count. rewrite <- E.
  apply filter_In. split; [exact Hc | rewrite Hm; reflexivity].
Qed.

Lemma Series_mode_nothing s c :
  Series_mode s = None -> In c s -> is_missing c = true.
Proof.
  unfold Series_mode.
  destruct (filter (fun c => negb (is_missing c)) s) as [|x rest] eqn:E;
    [|discriminate].
  intros _ Hc. destruct (is_missing c) eqn:Hm; [reflexivity|].
  assert (Hin : In c (filter (fun c => negb (is_missing c)) s))
    by (apply filter_In; split; [exact Hc | rewrite Hm; reflexivity]).
  rewrite E in Hin. contradiction.
Qed.

Lemma fillna_nothing v s :
  existsb is_missing s = false -> fillna v s = s.
Proof.
  intros H. unfold fillna. rewrite <- (map_id s) at 2.
  apply map_ext_in. intros c Hc. rewrite (none_missing _ _ H Hc). reflexivity.
Qed.

(** X16.  What [process_data] does to a column whose name is not that of a
    numeric column.  The column is first passed through the date
    conversion; then each of its missing entries is replaced by one filler
    and every other entry is kept.  The filler is the mode of the column,
    an entry that is present and that no entry present occurs more often
    than, or the string "Unknown" when the column has no entry present.
    Afterwards the column holds no missing entry. *)
Theorem process_data_fills_gaps pd td df col :
  In col (columns df) -> mem (name col) (numeric_cols df) = false ->
  exists col' filler,
    In col' (columns (process_data pd td df))
    /\ name col' = name col
    /\ values col' = fillna filler (values (convert_dates td col))
    /\ (forall c, In c (values col') -> is_missing c = false)
    /\ ((In filler (values (convert_dates td col))
         /\ is_missing filler = false
         /\ forall c, In c (values (convert_dates td col)) ->
                      is_missing c = false ->
                      (count_cell c (values (convert_dates td col))
                       <= count_cell filler (values (convert_dates td col)))%nat)
        \/ (filler = Str "Unknown"
            /\ forall c, In c (values (convert_dates td col)) ->
                         is_missing c = true)).
Proof.
  intros Hin Hnum.
  set (conv := convert_dates td col).
  assert (Hname : name conv = name col) by apply convert_dates_name.
  exists (fill_missing pd (numeric_cols df) conv).
  exists (match Series_mode (values conv) with
          | Some m => m
          | None => Str "Unknown"
          end).
  assert (Hfill : is_missing (match Series_mode (values conv) with
                              | Some m => m
                              | None => Str "Unknown"
                              end) = false).
  { destruct (Series_mode (values conv)) as [m|] eqn:Hmode; [|reflexivity].
    apply (Series_mode_present _ _ Hmode). }
  assert (Hvals : values (fill_missing pd (numeric_cols df) conv)
                  = fillna (match Series_mode (values conv) with
                            | Some m => m
                            | None => Str "Unknown"
                            end) (values conv)).
  { unfold fill_missing. rewrite Hname, Hnum.
    destruct (existsb is_missing (values conv)) eqn:Hany.
    - destruct (Series_mode (values conv)); reflexivity.
    - rewrite (fillna_nothing _ _ Hany). reflexivity. }
  split; [|split; [|split; [|split]]].
  - unfold process_data. simpl. apply in_map_iff. exists col.
    split; [reflexivity | exact Hin].
  - rewrite fill_missing_name. exact Hname.
  - exact Hvals.
  - intros c Hc. rewrite Hvals in Hc. exact (fillna_present _ _ _ Hfill Hc).
  - destruct (Series_mode (values conv)) as [m|] eqn:Hmode.
    + left. destruct (Series_mode_present _ _ Hmode) as [Hm1 Hm2].
      split; [exact Hm1|]. split; [exact Hm2|].
      apply (Series_mode_most_frequent _ _ Hmode).
    + right. split; [reflexivity|].
      intros c Hc. exact (Series_mode_nothing _ _ Hmode Hc).
Qed.

(** X17.  In [process_data] a numeric column keeps its name, its dtype and
    every entry that is present, and each of its missing entries becomes
    the column's median; when that median is a number, the column has no
    missing entry left, and when it is NaN (nothing to take a median of)
    the gaps stay. *)
Theorem process_data_numeric_column pd td df col :
  In col (columns df) -> is_number (dt col) = true ->
  In {| name := name col; dt := dt col;
        values := fillna (Num (Series_median pd (floats col))) (values col) |}
     (columns (process_data pd td df))
  /\ (is_nan (Series_median pd (floats col)) = false ->
      forall c,
        In c (fillna (Num (Series_median pd (floats col))) (values col)) ->
        is_missing c = false)
  /\ (forall p c, nth_error (values col) p = Some c ->
        nth_error (fillna (Num (Series_median pd (floats col))) (values col)) p
        = Some (if is_missing c
                then Num (Series_median pd (floats col))
                else c)).
Proof.
  intros Hin Hnum. split; [|split].
  - unfold process_data. simpl. apply in_map_iff. exists col.
    split; [|exact Hin].
    assert (Hconv : convert_dates td col = col).
    { unfold convert_dates.
      destruct (dt col); simpl in *; try discriminate; reflexivity. }
    rewrite Hconv. unfold fill_missing.
    assert (Hmem : mem (name col) (numeric_cols df) = true).
    { apply mem_In. unfold numeric_cols, select_dtypes.
      apply in_map, filter_In. split; assumption. }
    rewrite Hmem.
    destruct (existsb is_missing (values col)) eqn:Hany; [reflexivity|].
    rewrite (fillna_nothing _ _ Hany). destruct col; reflexivity.
  - intros Hmed c Hc. eapply fillna_present; [|exact Hc]. exact Hmed.
  - intros p c Hp. unfold fillna. rewrite nth_error_map, Hp. reflexivity.
Qed.

(** [gappy_frame] cleaned: three columns of three entries under the same
    names. *)
Lemma process_data_keeps_shape_witness :
  index (process_data Reference.pd Cleaning.to_datetime_of gappy_frame)
  = index gappy_frame
  /\ column_names
       (process_data Reference.pd Cleaning.to_datetime_of gappy_frame)
     = ["day"; "sales"; "void"]
  /\ well_formed
       (process_data Reference.pd Cleaning.to_datetime_of gappy_frame).
Proof.
  destruct (process_data_keeps_shape Reference.pd Cleaning.to_datetime_of
              gappy_frame) as (Hidx & Hnames & Hwf).
  split; [exact Hidx|]. split; [exact Hnames|].
  apply Hwf.
  - intros l l' H. inversion H. apply length_map.
  - intros c [<-|[<-|[<-|[]]]]; reflexivity.
Defined.

(** The column "day" of [gappy_frame]: one date is read, one entry is
    missing and one is unreadable; both gaps get the date that was read. *)
Lemma process_data_fills_gaps_witness :
  (exists col' filler,
      In col' (columns (process_data Reference.pd Cleaning.to_datetime_of
                          gappy_frame))
      /\ name col'
         = name {| name := "day"; dt := object_;
                   values := [Str "2024-01-02"; NA; Str "soon"] |}
      /\ values col'
         = fillna filler
             (values (convert_dates Cleaning.to_datetime_of
                        {| name := "day"; dt := object_;
                           values := [Str "2024-01-02"; NA; Str "soon"] |}))
      /\ (forall c, In c (values col') -> is_missing c = false)
      /\ ((In filler
              (values (convert_dates Cleaning.to_datetime_of
                         {| name := "day"; dt := object_;
                            values := [Str "2024-01-02"; NA; Str "soon"] |}))
           /\ is_missing filler = false
           /\ forall c,
                In c (values (convert_dates Cleaning.to_datetime_of
                                {| name := "day"; dt := object_;
                                   values :=
                                     [Str "2024-01-02"; NA; Str "soon"] |})) ->
                is_missing c = false ->
                (count_cell c
                   (values (convert_dates Cleaning.to_datetime_of
                              {| name := "day"; dt := object_;
                                 values :=
                                   [Str "2024-01-02"; NA; Str "soon"] |}))
                 <= count_cell filler
                      (values (convert_dates Cleaning.to_datetime_of
                                 {| name := "day"; dt := object_;
                                    values :=
                                      [Str "2024-01-02"; NA;
                                       Str "soon"] |})))%nat)
          \/ (filler = Str "Unknown"
              /\ forall c,
                   In c (values (convert_dates Cleaning.to_datetime_of
                                   {| name := "day"; dt := object_;
                                      values :=
                                        [Str "2024-01-02"; NA;
                                         Str "soon"] |})) ->
                   is_missing c = true)))
  /\ In {| name := "day"; dt := datetime64;
           values := [Stamp 20240102; Stamp 20240102; Stamp 20240102] |}
        (columns (process_data Reference.pd Cleaning.to_datetime_of
                    gappy_frame)).
Proof.
  split; [|left; reflexivity].
  apply (process_data_fills_gaps Reference.pd Cleaning.to_datetime_of
           gappy_frame
           {| name := "day"; dt := object_;
              values := [Str "2024-01-02"; NA; Str "soon"] |}).
  - left. reflexivity.
  - reflexivity.
Defined.

(** The gap of "sales" becomes the median 2 of 1 and 3. *)
Lemma process_data_numeric_column_witness :
  In {| name := "sales"; dt := float64;
        values := [Num 1; Num 2; Num 3] |}
     (columns (process_data Reference.pd Cleaning.to_datetime_of gappy_frame)).
Proof.
  apply (proj1 (process_data_numeric_column Reference.pd
                  Cleaning.to_datetime_of gappy_frame
                  {| name := "sales"; dt := float64;
                     values := [Num 1; Num nan; Num 3] |}
                  (or_intror (or_introl eq_refl)) eq_refl)).
Defined.

(** * [get_summary_stats] *)

Lemma present_plus_missing (s : list cell) :
  (count_present s + count_missing s)%nat = List.length s.
Proof.
  unfold count_present, count_missing.
  induction s as [|c s IH]; simpl; [reflexivity|].
  destruct (is_missing c); simpl; lia.
Qed.

Lemma split_by_test {A} (f : A -> bool) (l : list A) :
  Permutation (filter f l ++ filter (fun x => negb (f x)) l)%list l.
Proof.
  induction l as [|x l IH]; simpl; [apply perm_nil|].
  destruct (f x); simpl.
  - apply perm_skip, IH.
  - symmetry. apply Permutation_cons_app. symmetry. exact IH.
Qed.

(** X18.  The summary table has one row per column of the frame: the
    numeric columns first, in dataset order, then the other columns in
    dataset order.  In every row Count and Missing add up to the number of
    rows of the frame. *)
Theorem summary_table_rows pd t df :
  map Column (get_summary_stats pd t df)
  = (numeric_cols df ++ categorical_cols df)%list
  /\ Permutation (map Column (get_summary_stats pd t df)) (column_names df)
  /\ (well_formed df ->
      forall row, In row (get_summary_stats pd t df) ->
                  (Count row + Missing row)%nat = shape0 df).
Proof.
  assert (Hcols : map Column (get_summary_stats pd t df)
                  = (numeric_cols df ++ categorical_cols df)%list).
  { unfold get_summary_stats, numeric_cols, categorical_cols, select_dtypes.
    rewrite map_app, !map_map. reflexivity. }
  split; [exact Hcols|]. split.
  - rewrite Hcols.
    unfold numeric_cols, categorical_cols, select_dtypes, column_names.
    rewrite <- map_app. apply Permutation_map.
    apply (split_by_test (fun c => is_number (dt c))).
  - intros Hwf row Hrow. unfold get_summary_stats in Hrow.
    apply in_app_or in Hrow.
    destruct Hrow as [Hrow|Hrow]; apply in_map_iff in Hrow;
      destruct Hrow as (col & <- & Hcol); apply filter_In in Hcol;
      destruct Hcol as [Hcol _]; simpl; rewrite present_plus_missing;
      apply Hwf, Hcol.
Qed.

(** The table of [gappy_frame]: the two numeric columns, then "day". *)
Lemma summary_table_rows_witness :
  map Column (get_summary_stats Reference.pd Summary.tools gappy_frame)
  = ["sales"; "void"; "day"]
  /\ forall row,
       In row (get_summary_stats Reference.pd Summary.tools gappy_frame) ->
       (Count row + Missing row)%nat = shape0 gappy_frame.
Proof.
  destruct (summary_table_rows Reference.pd Summary.tools gappy_frame)
    as (Hcols & _ & Hsum).
  split; [exact Hcols|]. apply Hsum.
  intros c [<-|[<-|[<-|[]]]]; reflexivity.
Defined.

Lemma all_missing_floats s :
  (forall c, In c s -> is_missing c = true) ->
  filter notna (map to_float s) = [].
Proof.
  induction s as [|c s IH]; simpl; intros H; [reflexivity|].
  assert (Hc : is_nan (to_float c) = true).
  { pose proof (H c (or_introl eq_refl)) as Hm.
    destruct c; simpl in *; try discriminate Hm; try exact Hm; reflexivity. }
  unfold notna at 1. rewrite Hc. simpl.
  apply IH. intros c' Hc'. apply H. right. exact Hc'.
Qed.

Lemma all_missing_count s :
  (forall c, In c s -> is_missing c = true) ->
  count_present s = 0%nat /\ count_missing s = List.length s.
Proof.
  unfold count_present, count_missing.
  induction s as [|c s IH]; simpl; intros H; [split; reflexivity|].
  rewrite (H c (or_introl eq_refl)). simpl.
  destruct IH as [IH1 IH2]; [intros c' Hc'; apply H; right; exact Hc'|].
  split; [exact IH1 | rewrite IH2; reflexivity].
Qed.

(** X19.  The row of a numeric column in which every entry is missing
    counts no entry, counts every row as missing, and holds no number under
    Min and under Max: both are missing entries of the table. *)
Theorem summary_of_empty_column pd t df col :
  In col (columns df) -> is_number (dt col) = true ->
  (forall c, In c (values col) -> is_missing c = true) ->
  exists row,
    In row (get_summary_stats pd t df)
    /\ Column row = name col
    /\ Count row = 0%nat
    /\ Missing row = List.length (values col)
    /\ Min row = None /\ Max row = None.
Proof.
  intros Hin Hnum Hall. exists (numeric_row pd t col).
  destruct (all_missing_count _ Hall) as [Hc Hm].
  split; [|simpl; repeat split; try assumption].
  - unfold get_summary_stats. apply in_or_app. left.
    apply in_map, filter_In. split; assumption.
  - unfold rounded, Series_min, Series_extreme, floats.
    rewrite (all_missing_floats _ Hall). reflexivity.
  - unfold rounded, Series_max, Series_extreme, floats.
    rewrite (all_missing_floats _ Hall). reflexivity.
Qed.

(** The column "void" of [gappy_frame]. *)
Lemma summary_of_empty_column_witness :
  exists row,
    In row (get_summary_stats Reference.pd Summary.tools gappy_frame)
    /\ Column row = "void"
    /\ Count row = 0%nat
    /\ Missing row = 3%nat
    /\ Min row = None /\ Max row = None.
Proof.
  apply (summary_of_empty_column Reference.pd Summary.tools gappy_frame
           {| name := "void"; dt := float64;
              values := [Num nan; Num nan; Num nan] |}).
  - right. right. left. reflexivity.
  - reflexivity.
  - intros c [<-|[<-|[<-|[]]]]; reflexivity.
Defined.

Lemma length_append (a b : string) :
  String.length (a ++ b) = (String.length a + String.length b)%nat.
Proof.
  induction a as [|c a IH]; simpl; [reflexivity | rewrite IH; reflexivity].
Qed.

Lemma length_prefix n (s : string) :
  String.length (substring 0 n s) = Nat.min n (String.length s).
Proof.
  revert n. induction s as [|c s IH]; intros [|n]; simpl; try reflexivity.
  rewrite IH. reflexivity.
Qed.

Lemma prefix_whole n (s : string) :
  (String.length s <= n)%nat -> substring 0 n s = s.
Proof.
  revert n. induction s as [|c s IH]; intros [|n]; simpl; intros H;
    try reflexivity; try lia.
  rewrite IH by lia. reflexivity.
Qed.

Lemma shorten_bound s :
  (String.length (shorten s) <= 23)%nat
  /\ ((String.length s <= 20)%nat -> shorten s = s)
  /\ ((20 < String.length s)%nat ->
      shorten s = substring 0 20 s ++ "...").
Proof.
  unfold shorten. split; [|split].
  - rewrite length_append, length_prefix.
    pose proof (Nat.le_min_l 20 (String.length s)) as Hmin.
    destruct (20 <? String.length s)%nat; cbn [String.length]; lia.
  - intros H. rewrite (prefix_whole 20 s H).
    replace (20 <? String.length s)%nat with false
      by (symmetry; apply Nat.ltb_ge; exact H).
    clear H. induction s as [|c s IH]; simpl; [reflexivity|].
    rewrite IH. reflexivity.
  - intros H. apply Nat.ltb_lt in H. rewrite H. reflexivity.
Qed.

(** X20.  The "Most Common" entry of the summary table is never longer
    than 23 characters: it is the most common value itself when that has
    at most 20 characters, and its first 20 characters followed by "..."
    when it is longer; a column without any entry shows "None". *)
Theorem most_common_is_short pd t df row :
  In row (get_summary_stats pd t df) ->
  (forall s, Most_Common row = Some s -> (String.length s <= 23)%nat)
  /\ (forall col,
        row = categorical_row t col ->
        Most_Common row
        = Some (match most_common t (values col) with
                | Some v =>
                    if (20 <? String.length v)%nat
                    then substring 0 20 v ++ "..."
                    else v
                | None => "None"
                end)).
Proof.
  intros Hrow. split.
  - intros s Hs. unfold get_summary_stats in Hrow.
    apply in_app_or in Hrow.
    destruct Hrow as [Hrow|Hrow]; apply in_map_iff in Hrow;
      destruct Hrow as (col & <- & _); simpl in Hs; [discriminate Hs|].
    inversion Hs. apply shorten_bound.
  - intros col ->. simpl. f_equal.
    destruct (most_common t (values col)) as [v|]; [|reflexivity].
    destruct (20 <? String.length v)%nat eqn:E.
    + apply shorten_bound. apply Nat.ltb_lt. exact E.
    + apply shorten_bound. apply Nat.ltb_ge. exact E.
Qed.

(** A region with a long name is cut after 20 characters. *)
Lemma most_common_is_short_witness :
  Most_Common
    (categorical_row Summary.tools
       (object_column "region" ["the far north-western territories"]))
  = Some "the far north-wester...".
Proof.
  apply (proj2 (most_common_is_short Reference.pd Summary.tools
                  (frame 1 [object_column "region"
                              ["the far north-western territories"]])
                  (categorical_row Summary.tools
                     (object_column "region"
                        ["the far north-western territories"]))
                  (or_introl eq_refl))
               (object_column "region"
                  ["the far north-western territories"])).
  reflexivity.
Defined.

(** * [create_data_profile] *)

Lemma classify_inv rows col :
  match classify rows col with
  | Boolean =>
      is_numeric_dtype (dt col) = true /\ (nunique col <= 2)%nat
  | Numeric => is_numeric_dtype (dt col) = true
  | Datetime =>
      is_numeric_dtype (dt col) = false
      /\ is_datetime64_dtype (dt col) = true
  | Text_ | Categorical =>
      is_numeric_dtype (dt col) = false
      /\ is_datetime64_dtype (dt col) = false
  end.
Proof.
  unfold classify.
  destruct (is_datetime64_dtype (dt col)) eqn:Hd.
  - split; [|reflexivity]. destruct (dt col); simpl in *; congruence.
  - destruct (is_numeric_dtype (dt col)) eqn:Hn.
    + destruct (nunique col <=? 2)%nat eqn:E; simpl.
      * destruct (forallb in_zero_one (unique_floats col));
          [split; [reflexivity | apply Nat.leb_le, E] | reflexivity].
      * reflexivity.
    + destruct (is_object_dtype (dt col)); [|split; reflexivity].
      destruct ((rows <? 2 * nunique col)%nat
                || (50 <? str_len_mean col)%float); split; reflexivity.
Qed.

(** X21.  The profile and the classifier agree on what they share.  A
    column that [detect_data_types] puts in the boolean bucket is described
    by the profile as a categorical numeric with at most 2 distinct values;
    a column of the datetime bucket is described by its date range; a
    column of the numeric bucket is described as numeric (as a range, or
    as categorical numeric when it has 5 distinct values or fewer); a
    column of the text or of the categorical bucket is described by its
    distinct count, with examples or without. *)
Theorem profile_agrees_with_classifier pd rows col :
  (classify rows col = Boolean ->
   exists u m p,
     describe pd rows col = CategoricalNumeric (name col) u m p
     /\ (u <= 2)%nat)
  /\ (classify rows col = Datetime ->
      exists a b m p, describe pd rows col = DatetimeRange (name col) a b m p)
  /\ (classify rows col = Numeric ->
      (exists u m p,
          describe pd rows col = CategoricalNumeric (name col) u m p)
      \/ (exists lo hi mu med m p,
             describe pd rows col
             = NumericRange (name col) lo hi mu med m p))
  /\ (classify rows col = Text_ \/ classify rows col = Categorical ->
      (exists u ex m p,
          describe pd rows col = CategoricalExamples (name col) u ex m p)
      \/ (exists u m p,
             describe pd rows col = TextCategorical (name col) u m p)).
Proof.
  pose proof (classify_inv rows col) as Hinv.
  unfold describe, nunique_of. repeat split.
  - intros H. rewrite H in Hinv. destruct Hinv as [Hn Hu]. rewrite Hn.
    replace (nunique col <=? 5)%nat with true
      by (symmetry; apply Nat.leb_le; lia).
    do 3 eexists. split; [reflexivity | exact Hu].
  - intros H. rewrite H in Hinv. destruct Hinv as [Hn Hd]. rewrite Hn, Hd.
    do 4 eexists. reflexivity.
  - intros H. rewrite H in Hinv. rewrite Hinv.
    destruct (nunique col <=? 5)%nat;
      [left; do 3 eexists | right; do 6 eexists]; reflexivity.
  - intros H.
    assert (Hnd : is_numeric_dtype (dt col) = false
                  /\ is_datetime64_dtype (dt col) = false)
      by (destruct H as [H|H]; rewrite H in Hinv; exact Hinv).
    destruct Hnd as [Hn Hd]. rewrite Hn, Hd.
    destruct (nunique_cells (values col) <=? 10)%nat;
      [left; do 4 eexists | right; do 3 eexists]; reflexivity.
Qed.

(** A 0/1 column: boolean for the classifier, categorical numeric for the
    profile. *)
Lemma profile_agrees_with_classifier_witness :
  exists u m p,
    describe Reference.pd 3
      {| name := "flag"; dt := int64; values := [Num 0; Num 1; Num 1] |}
    = CategoricalNumeric
        (name {| name := "flag"; dt := int64;
                 values := [Num 0; Num 1; Num 1] |})
        u m p
    /\ (u <= 2)%nat.
Proof.
  apply (proj1 (profile_agrees_with_classifier Reference.pd 3
                  {| name := "flag"; dt := int64;
                     values := [Num 0; Num 1; Num 1] |})).
  reflexivity.
Defined.










(** * [get_visualization_options] *)

Lemma filter_length_le {A} (f g : A -> bool) (l : list A) :
  (forall x, f x = true -> g x = true) ->
  (List.length (filter f l) <= List.length (filter g l))%nat.
Proof.
  intros H. induction l as [|x l IH]; simpl; [lia|].
  destruct (f x) eqn:E.
  - rewrite (H x E). simpl. lia.
  - destruct (g x); simpl; lia.
Qed.

Lemma datetime_among_categorical df :
  (List.length (datetime_cols df) <= List.length (categorical_cols df))%nat.
Proof.
  unfold datetime_cols, categorical_cols, select_dtypes.
  rewrite !length_map. apply filter_length_le.
  intros c. destruct (dt c); simpl; congruence.
Qed.

Ltac leb_cases :=
  repeat match goal with
    | |- context [(?a <=? ?b)%nat] => destruct (Nat.leb_spec a b)
    end.

(** X23.  Which chart types are on offer.  A frame without a numeric
    column is offered no chart at all.  The scatter matrix and the bubble
    chart are offered together, and then the scatter plot is too; the
    scatter plot comes with the line chart, the histogram and the box
    plot; the bar chart and the pie chart are offered together; the
    heatmap is only offered along with the bar chart.  No chart type is
    offered twice. *)
Theorem chart_types_on_offer df :
  (numeric_cols df = [] -> get_visualization_options df = [])
  /\ (In "scatter_matrix" (offered df) <-> In "bubble_chart" (offered df))
  /\ (In "bubble_chart" (offered df) -> In "scatter_plot" (offered df))
  /\ (In "scatter_plot" (offered df) ->
      In "line_chart" (offered df) /\ In "histogram" (offered df)
      /\ In "box_plot" (offered df))
  /\ (In "bar_chart" (offered df) <-> In "pie_chart" (offered df))
  /\ (In "heatmap" (offered df) -> In "bar_chart" (offered df))
  /\ NoDup (offered df).
Proof.
  pose proof (datetime_among_categorical df) as Hdc.
  unfold offered, get_visualization_options.
  split.
  { intros H. rewrite H. simpl. rewrite !andb_false_r. reflexivity. }
  remember (List.length (numeric_cols df)) as n.
  remember (List.length (categorical_cols df)) as c.
  remember (List.length (datetime_cols df)) as d.
  clear Heqn Heqc Heqd.
  leb_cases; simpl; try lia;
    repeat split; intros; simpl in *;
    repeat match goal with
      | H : _ \/ _ |- _ => destruct H
      | H : False |- _ => destruct H
      | H : _ = _ |- _ => discriminate H
      end;
    auto 12;
    repeat (apply NoDup_cons;
            [simpl; intros ?;
             repeat match goal with
               | H : _ \/ _ |- _ => destruct H
               | H : False |- _ => destruct H
               | H : _ = _ |- _ => discriminate H
               end|]);
    try apply NoDup_nil.
Qed.

(** A frame of text alone is offered nothing. *)
Lemma chart_types_on_offer_witness :
  get_visualization_options
    (frame 2 [object_column "region" ["north"; "south"]]) = [].
Proof.
  apply (proj1 (chart_types_on_offer
                  (frame 2 [object_column "region" ["north"; "south"]]))).
  reflexivity.
Defined.

Lemma select_dtypes_In p df c :
  In c (select_dtypes p df) -> In c (column_names df).
Proof.
  unfold select_dtypes, column_names. intros H.
  apply in_map_iff in H. destruct H as (col & <- & Hcol).
  apply filter_In in Hcol. apply in_map, Hcol.
Qed.

Ltac in_cases :=
  repeat match goal with
    | H : In _ (_ ++ _) |- _ => apply in_app_or in H
    | H : In _ (_ :: _) |- _ => destruct H
    | H : In _ [] |- _ => destruct H
    | H : _ \/ _ |- _ => destruct H
    | H : False |- _ => destruct H
    | H : (_, _) = (_, _) |- _ => inversion H; clear H; subst
    end.

(** X24.  Every entry of an option that lists columns (all options but the
    three fixed lists barmode, histnorm and colorscale) is the string
    "None" or the name of a column of the frame. *)
Theorem options_list_columns df chart opts key v e :
  In (chart, opts) (get_visualization_options df) ->
  In (key, v) opts ->
  column_option key = true ->
  In e (entries v) ->
  e = "None" \/ In e (column_names df).
Proof.
  unfold get_visualization_options. intros Hchart Hkey Hcol He.
  assert (Hn : forall x, In x (numeric_cols df) -> In x (column_names df))
    by (intros x; apply select_dtypes_In).
  assert (Hc : forall x, In x (categorical_cols df) -> In x (column_names df))
    by (intros x; apply select_dtypes_In).
  assert (Hd : forall x, In x (datetime_cols df) -> In x (column_names df))
    by (intros x; apply select_dtypes_In).
  revert Hchart.
  destruct (2 <=? List.length (numeric_cols df))%nat,
    (1 <=? List.length (numeric_cols df))%nat,
    (1 <=? List.length (categorical_cols df))%nat,
    (3 <=? List.length (numeric_cols df))%nat,
    (2 <=? List.length (categorical_cols df)
           + List.length (datetime_cols df))%nat;
    simpl; intros Hchart; in_cases; simpl in Hcol, He;
    try discriminate Hcol; in_cases; subst; auto.
Qed.

(** The histogram of a frame with prices and regions lets the user pick
    "region". *)
Lemma options_list_columns_witness :
  "region" = "None"
  \/ In "region"
        (column_names
           (frame 2 [numeric_column "price" [10; 20]%float;
                     object_column "region" ["north"; "south"]])).
Proof.
  apply (options_list_columns
           (frame 2 [numeric_column "price" [10; 20]%float;
                     object_column "region" ["north"; "south"]])
           "histogram"
           [("x", choices ["price"; "region"]);
            ("color", choices ["None"; "region"]);
            ("nbins", slider 5 100 20);
            ("histnorm",
             choices [""; "percent"; "probability"; "density";
                      "probability density"])]
           "x" (choices ["price"; "region"]) "region").
  - right. right. left. reflexivity.
  - left. reflexivity.
  - reflexivity.
  - right. left. reflexivity.
Defined.

Lemma NoDup_select_dtypes p df :
  NoDup (column_names df) -> NoDup (select_dtypes p df).
Proof.
  unfold column_names, select_dtypes.
  induction (columns df) as [|c cols IH]; simpl; intros H;
    [apply NoDup_nil|].
  inversion H as [|x l Hnotin Hnd]; subst.
  destruct (p (dt c)); simpl; [|apply IH, Hnd].
  apply NoDup_cons; [|apply IH, Hnd].
  intros Hin. apply Hnotin. apply in_map_iff in Hin.
  destruct Hin as (c' & Hname & Hc'). apply filter_In in Hc'.
  rewrite <- Hname. apply in_map, Hc'.
Qed.

Lemma count_once (l : list string) x :
  NoDup l -> In x l -> count_occ string_dec l x = 1%nat.
Proof.
  intros Hnd Hin. apply (proj1 (NoDup_count_occ' string_dec l)); assumption.
Qed.

(** X25.  In a frame with unique column names that has a numeric column,
    every datetime column is listed twice among the x options of the line
    chart: once as a datetime column and once more as a column that is not
    numeric. *)
Theorem datetime_column_listed_twice df d :
  NoDup (column_names df) ->
  numeric_cols df <> [] ->
  In d (datetime_cols df) ->
  exists opts xs,
    In ("line_chart", opts) (get_visualization_options df)
    /\ In ("x", choices xs) opts
    /\ count_occ string_dec xs d = 2%nat.
Proof.
  intros Hnd Hnum Hd.
  assert (Hlen : (1 <=? List.length (numeric_cols df))%nat = true)
    by (apply Nat.leb_le; destruct (numeric_cols df);
        [congruence | simpl; lia]).
  eexists. eexists. split; [|split].
  - unfold get_visualization_options. rewrite Hlen.
    apply in_or_app. right. apply in_or_app. left. left. reflexivity.
  - left. reflexivity.
  - pose proof Hd as Hd'.
    unfold datetime_cols, select_dtypes in Hd'. apply in_map_iff in Hd'.
    destruct Hd' as (col & Hname & Hcol). apply filter_In in Hcol.
    destruct Hcol as [Hcol Hdt]. subst d.
    assert (Hcat : In (name col) (categorical_cols df)).
    { apply mem_In. unfold categorical_cols.
      rewrite (mem_by_dtype df col _ Hnd Hcol).
      destruct (dt col); simpl in *; congruence. }
    assert (Hnot : ~ In (name col) (numeric_cols df)).
    { intros H. apply mem_In in H. unfold numeric_cols in H.
      rewrite (mem_by_dtype df col _ Hnd Hcol) in H.
      destruct (dt col); simpl in *; congruence. }
    rewrite !count_occ_app.
    unfold datetime_cols, numeric_cols, categorical_cols in *.
    rewrite (count_once _ _ (NoDup_select_dtypes _ df Hnd) Hd).
    rewrite (count_once _ _ (NoDup_select_dtypes _ df Hnd) Hcat).
    apply (count_occ_not_In string_dec) in Hnot. rewrite Hnot. reflexivity.
Qed.

(** A frame of dates and prices: "when" twice among the x options. *)
Lemma datetime_column_listed_twice_witness :
  exists opts xs,
    In ("line_chart", opts)
       (get_visualization_options
          (frame 2 [ {| name := "when"; dt := datetime64;
                        values := [Stamp 1; Stamp 2] |};
                     numeric_column "price" [10; 20]%float ]))
    /\ In ("x", choices xs) opts
    /\ count_occ string_dec xs "when" = 2%nat.
Proof.
  apply datetime_column_listed_twice.
  - apply NoDup_cons; [intros [H|[]]; discriminate H|].
    apply NoDup_cons; [intros []|apply NoDup_nil].
  - discriminate.
  - left. reflexivity.
Defined.

(** * [format_large_number] *)

Lemma scale_stops fuel : forall magnitude num,
  (4 <= magnitude + fuel)%nat -> (magnitude <= 4)%nat ->
  scale fuel magnitude num = scale (4 - magnitude) magnitude num.
Proof.
  induction fuel as [|fuel IH]; intros magnitude num Hf Hm.
  - replace (4 - magnitude)%nat with 0%nat by lia. reflexivity.
  - destruct (Nat.eq_dec magnitude 4) as [->|Hne].
    + simpl. rewrite andb_false_r. reflexivity.
    + replace (4 - magnitude)%nat with (S (4 - S magnitude)) by lia.
      simpl. destruct ((1000 <=? abs num)%float
                       && (magnitude <? 4)%nat); [|reflexivity].
      apply IH; lia.
Qed.

(** The loop stops after [k] rounds: every round before was entered on a
    number of absolute value 1000 or more, at an index below 4, and the
    loop test fails on the result unless the rounds ran out. *)
Lemma scale_rounds fuel : forall magnitude num m x,
  scale fuel magnitude num = (m, x) ->
  exists k,
    m = (magnitude + k)%nat /\ x = scaled_by k num /\ (k <= fuel)%nat
    /\ (forall j, (j < k)%nat ->
          (1000 <=? abs (scaled_by j num))%float = true
          /\ (magnitude + j < 4)%nat)
    /\ ((k < fuel)%nat ->
        (1000 <=? abs x)%float && (m <? 4)%nat = false).
Proof.
  induction fuel as [|fuel IH]; intros magnitude num m x; simpl.
  - intros H. inversion H; subst. exists 0%nat.
    repeat split; try lia; try reflexivity.
  - destruct ((1000 <=? abs num)%float && (magnitude <? 4)%nat) eqn:E.
    + intros H. destruct (IH _ _ _ _ H) as (k & Hm & Hx & Hk & Hpre & Hstop).
      apply andb_true_iff in E. destruct E as [E1 E2].
      apply Nat.ltb_lt in E2.
      exists (S k). split; [lia|]. split.
      { rewrite Hx. unfold scaled_by. rewrite Nat.iter_succ_r. reflexivity. }
      split; [lia|]. split.
      * intros [|j] Hj.
        -- split; [exact E1 | lia].
        -- destruct (Hpre j ltac:(lia)) as [H1 H2]. split; [|lia].
           unfold scaled_by in *. rewrite Nat.iter_succ_r. exact H1.
      * intros Hlt. apply Hstop. lia.
    + intros H. inversion H; subst. exists 0%nat.
      repeat split; try lia; try reflexivity. intros _.
      replace (m + 0)%nat with m by lia. exact E.
Qed.

(** X26.  [format_large_number] always finds a suffix (the index never
    runs past "T").  Its result is the text the format [.1f] makes of the
    number divided by 1000 [k] times in a row, followed by the suffix of
    index [k], where [k] is the number of rounds of the loop: every number
    on the way was 1000 or more in absolute value, and the number handed to
    the format is below 1000 in absolute value (or is NaN) unless the
    suffix is "T".  In particular a number below 1000 is formatted as it
    is, with no suffix.  The bound is on the number formatted, not on the
    text: the format rounds to one decimal, and 999960 comes out as
    "1000.0K".  More rounds of the loop than the four suffixes allow change
    nothing. *)
Theorem format_large_number_scaled format_1f num :
  (exists k s,
      format_large_number format_1f num
      = Ok (format_1f (scaled_by k num) ++ s)
      /\ nth_error suffixes k = Some s
      /\ (forall j, (j < k)%nat ->
            (1000 <=? abs (scaled_by j num))%float = true)
      /\ ((k < 4)%nat -> (1000 <=? abs (scaled_by k num))%float = false))
  /\ (forall fuel, (4 <= fuel)%nat -> scale fuel 0 num = scale 4 0 num).
Proof.
  split.
  - unfold format_large_number.
    destruct (scale (List.length suffixes) 0 num) as [m x] eqn:E.
    destruct (scale_rounds _ _ _ _ _ E) as (k & Hm & Hx & Hk & Hpre & Hstop).
    simpl in Hm. subst m x.
    assert (Hk4 : (k <= 4)%nat).
    { destruct k as [|k]; [lia|].
      destruct (Hpre k ltac:(lia)) as [_ H]. simpl in H. lia. }
    assert (Hs : exists s, nth_error suffixes k = Some s).
    { assert (Hcases : (k = 0 \/ k = 1 \/ k = 2 \/ k = 3 \/ k = 4)%nat)
        by lia.
      destruct Hcases as [->|[->|[->|[->| ->]]]]; simpl; eauto. }
    destruct Hs as [s Hs]. exists k, s. rewrite Hs.
    split; [reflexivity|]. split; [reflexivity|]. split.
    + intros j Hj. apply (Hpre j Hj).
    + intros Hlt. simpl in Hk, Hstop.
      specialize (Hstop ltac:(lia)).
      apply andb_false_iff in Hstop. destruct Hstop as [H|H]; [exact H|].
      apply Nat.ltb_ge in H. lia.
  - intros fuel Hfuel. rewrite (scale_stops fuel 0 num) by lia. reflexivity.
Qed.

(** 999960 is divided once, to a number below 1000 that the format rounds
    to "1000.0"; 1500 becomes "1.5K" and 999 is written as it is. *)
Lemma format_large_number_scaled_witness :
  (exists k s,
      format_large_number Printing.fixed1 999960
      = Ok (Printing.fixed1 (scaled_by k 999960) ++ s)
      /\ nth_error suffixes k = Some s
      /\ (forall j, (j < k)%nat ->
            (1000 <=? abs (scaled_by j 999960))%float = true)
      /\ ((k < 4)%nat -> (1000 <=? abs (scaled_by k 999960))%float = false))
  /\ format_large_number Printing.fixed1 999960 = Ok "1000.0K"
  /\ format_large_number Printing.fixed1 1500 = Ok "1.5K"
  /\ format_large_number Printing.fixed1 999 = Ok "999.0".
Proof.
  split; [|repeat split; vm_compute; reflexivity].
  apply (proj1 (format_large_number_scaled Printing.fixed1 999960)).
Defined.
